(** * Latency testing tools: percentile, probe classification, verdicts

    A shallow embedding of the numeric and decision code of the latency
    testing scripts:

    - [comprehensive-tests/test_gateway_latency.py]  (class [LatencyTester])
    - [custom-endpoints/test_custom_endpoints.py]     (class [CustomEndpointTest])
    - [simple-health-check/test_health_check.py]      (class [SimpleHealthCheckTest])
    - [quick_latency_test.py]                         (class [QuickLatencyTest])
    - [enhanced_latency_test.py]                      (class [EnhancedLatencyTest])
    - [generate_csv_report.py], [generate_excel_report.py]

    Numbers.  The scripts compute with Python floats.  Here a number is an
    exact rational ([Q]); equality of numbers is [Qeq] ([==]).  Rounding is
    outside the model: every statement below is about the arithmetic the
    code writes down, evaluated exactly.  The module [Binary64] repeats the
    percentile helper on IEEE 754 doubles, to evaluate it on concrete
    series as the interpreter does.  Properties that rounding breaks are
    not stated: an interpolated percentile can leave the range of its
    series by one unit in the last place and need not grow with the
    percentile ([binary64_rounding]).

    Strings.  A Python string is a string of 8-bit characters, read as
    ASCII; what is proved about [str.strip] is proved for ASCII strings.

    Exceptions.  A Python expression that can raise is an [option]: [None]
    stands for the raised exception ([IndexError], [ZeroDivisionError]).  *)

From Stdlib Require Import PrimFloat.
From Stdlib Require FloatOps SpecFloat Uint63.
From Stdlib Require Import ZArith QArith Qround Qabs List Lia Lqa Sorted Permutation.
From stdpp Require Import base option strings gmap.

Import ListNotations.
Local Open Scope string_scope.
Local Open Scope list_scope.
Local Open Scope Q_scope.

(** ** Python primitives used by the scripts *)

Module Py.

(** [int(x)] on a float: truncation toward zero. *)
Definition int (x : Q) : Z := Z.quot (Qnum x) (Zpos (Qden x)).

(** [len(l)] as a Python integer. *)
Definition len {A} (l : list A) : Z := Z.of_nat (length l).

(** [l[i]]: indices [0 .. len-1] count from the front, [-len .. -1] from
    the back, anything else raises [IndexError]. *)
Definition index {A} (l : list A) (i : Z) : option A :=
  if (0 <=? i)%Z then nth_error l (Z.to_nat i)
  else if (- len l <=? i)%Z then nth_error l (Z.to_nat (len l + i))
  else None.

(** [a / b] on floats: raises [ZeroDivisionError] when [b] is zero. *)
Definition div (a b : Q) : option Q :=
  if Qeq_bool b 0 then None else Some (a / b).

(** [a < b] on floats. *)
Definition lt (a b : Q) : bool := negb (Qle_bool b a).

(** [sorted(l)]: a stable ascending sort.  CPython uses a binary insertion
    sort on short lists; any stable sort returns the same list. *)
Fixpoint insert (x : Q) (l : list Q) : list Q :=
  match l with
  | [] => [x]
  | y :: l' => if lt y x then y :: insert x l' else x :: y :: l'
  end.

Definition sorted (l : list Q) : list Q := fold_right insert [] l.

(** [min(l)] and [max(l)]: the first smallest (largest) element;
    [ValueError] on the empty list. *)
Definition min (l : list Q) : option Q :=
  match l with
  | [] => None
  | x :: l' => Some (fold_left (fun m y => if lt y m then y else m) l' x)
  end.

Definition max (l : list Q) : option Q :=
  match l with
  | [] => None
  | x :: l' => Some (fold_left (fun m y => if lt m y then y else m) l' x)
  end.



(** [c.isspace()] for a character of an ASCII string: the tab, the line
    breaks (9 to 13), the four separators (28 to 31) and the space.  The
    whitespace that Python knows beyond ASCII (U+0085, U+00A0, U+2003 and
    the like) is not modelled: what is proved about [strip] is proved for
    ASCII strings. *)
Definition isspace (c : Ascii.ascii) : bool :=
  let n := Ascii.nat_of_ascii c in
  ((9 <=? n)%nat && (n <=? 13)%nat) || ((28 <=? n)%nat && (n <=? 32)%nat).

(** [s.strip()] for an ASCII string [s]: [s] without its leading and
    trailing whitespace. *)
Fixpoint lstrip (s : string) : string :=
  match s with
  | EmptyString => EmptyString
  | String c s' => if isspace c then lstrip s' else s
  end.

Fixpoint rstrip (s : string) : string :=
  match s with
  | EmptyString => EmptyString
  | String c s' =>
      match rstrip s' with
      | EmptyString => if isspace c then EmptyString else String c EmptyString
      | t => String c t
      end
  end.

Definition strip (s : string) : string := rstrip (lstrip s).

(** The truth value of a string: false for the empty one only. *)
Definition truthy (s : string) : bool :=
  match s with
  | EmptyString => false
  | String _ _ => true
  end.

(** [s.split("/")[-1] if "/" in s else other]: what follows the last
    slash of [s]. *)
Fixpoint after_last_slash (s : string) (segment : option string)
  : option string :=
  match s with
  | EmptyString => segment
  | String c s' =>
      if String.eqb (String c EmptyString) "/" then after_last_slash s' (Some EmptyString)
      else after_last_slash s' ((fun t => t +:+ String c EmptyString) <$> segment)
  end.

End Py.

(** ** The [statistics] module (Python standard library) *)

Module statistics.

(** [statistics.mean]: the arithmetic mean; [StatisticsError] on no data. *)
Definition mean (data : list Q) : option Q :=
  match data with
  | [] => None
  | _ => Some (fold_right Qplus 0 data / inject_Z (Py.len data))
  end.

(** [statistics.median]: the middle value of the sorted data, the mean of
    the two middle values when their number is even. *)
Definition median (data : list Q) : option Q :=
  let data := Py.sorted data in
  let n := Py.len data in
  if (n =? 0)%Z then None
  else if (n mod 2 =? 1)%Z then Py.index data (n / 2)
  else
    let i := (n / 2)%Z in
    a ← Py.index data (i - 1); b ← Py.index data i; Some ((a + b) / 2).

End statistics.

(** ** One HTTP exchange, as a prober sees it *)

(** What [client.get] gives back: it raises, or it returns a response, of
    which the scripts read [status_code] and [len(response.content)]. *)
Record Response := { status_code : Z; content_length : Z }.

Inductive Outcome :=
| Raises (e : string)
| Returns (r : Response).

(** One timed exchange: the clock read before the call, what the call did,
    and the clock read after it returned (not read when it raises). *)
Record Exchange := { start_time : Q; outcome : Outcome; end_time : Q }.

(** The requests a client sends in a batch get their answers from the
    network: the [k]-th GET of a batch is answered by exchange [k]. *)
Definition Network := nat -> Exchange.

(** A request as it leaves the client. *)
Record Request := { url : string; headers : gmap string string }.

(** [range(n)] *)
Definition range (n : Z) : list nat := seq 0 (Z.to_nat n).

(** ** Verdicts *)

Inductive Verdict := Excellent | Good | Fair | Concerning.

(** Values stored in the statistics dictionaries. *)
Inductive Value :=
| VInt (z : Z)
| VFloat (q : Q)
| VStr (s : string).

Definition number (v : Value) : option Q :=
  match v with
  | VInt z => Some (inject_Z z)
  | VFloat q => Some q
  | VStr _ => None
  end.
(** ** The percentile helpers *)

(** The body shared by all four [_percentile] methods, after the sort:
<<
    index = (percentile / 100) * (len(sorted_data) - 1)
    lower = int(index)
    upper = min(lower + 1, len(sorted_data) - 1)
    weight = index - lower
    return sorted_data[lower] * (1 - weight) + sorted_data[upper] * weight
>> *)
Definition interpolate (sorted_data : list Q) (percentile : Q) : option Q :=
  let index := (percentile / 100) * inject_Z (Py.len sorted_data - 1) in
  let lower := Py.int index in
  let upper := Z.min (lower + 1) (Py.len sorted_data - 1) in
  let weight := index - inject_Z lower in
  match Py.index sorted_data lower, Py.index sorted_data upper with
  | Some a, Some b => Some (a * (1 - weight) + b * weight)
  | _, _ => None
  end.

(** ** comprehensive-tests/test_gateway_latency.py *)

Module LatencyTester.

Definition old_urls : gmap string string :=
  {[ "dev" := "https://venture.mvciapi.dev.aws.gdcld.net";
     "test" := "https://venture.mvciapi.stage.aws.gdcld.net";
     "prod" := "https://venture.mvciapi.prod.aws.gdcld.net" ]}.

Definition new_urls : gmap string string :=
  {[ "dev" := "https://venture-profile-api.frontdoor.dev-godaddy.com";
     "test" := "https://venture-profile-api.frontdoor.test-godaddy.com";
     "prod" := "https://venture-profile-api.frontdoor.godaddy.com" ]}.

(** [get_urls]: [ValueError] for an unknown environment. *)
Definition get_urls (environment : string) : option (string * string) :=
  old_url ← old_urls !! environment;
  new_url ← new_urls !! environment;
  if decide (old_url = "" \/ new_url = "") then None
  else Some (old_url, new_url).

(** [test_endpoints]; the first one is the baseline, commented in the
    source as "Simple endpoint (no auth, minimal processing)". *)
Definition test_endpoints (environment : string) : list string :=
  let venture_id :=
    if decide (environment = "prod")
    then "02c97c68-65ab-4805-9e46-22f13aae55e4"
    else "a4a93b88-da14-4532-a737-0712489bd017" in
  let customer_id := "00000000-0000-0000-0000-000000000000" in
  [ "/health-check";
    "/v1/customer/" +:+ customer_id +:+ "/venture/" +:+ venture_id
      +:+ "/inferred/brands/status";
    "/v1/customer/" +:+ customer_id +:+ "/venture/" +:+ venture_id
      +:+ "/inferred/logo-url" ].

(** [measure_request_latency]: [None] is Python's [None]. *)
Definition measure_request_latency (x : Exchange) : option Q :=
  match outcome x with
  | Returns response =>
      if (status_code response <? 500)%Z
      then Some ((end_time x - start_time x) * 1000)
      else None
  | Raises _ => None
  end.

(** [run_latency_test]: the requests sent, in order, and the latencies
    collected.  The headers are set once, on the client, and go out with
    every request: three warm-up requests, then [num_requests] measured
    ones. *)
Definition run_latency_test (auth_token base_url endpoint : string)
    (num_requests : Z) (net : Network) : list Request * list Q :=
  let headers : gmap string string :=
    {[ "Authorization" := "Bearer " +:+ auth_token ]} in
  let get := {| url := base_url +:+ endpoint; headers := headers |} in
  let warm_up := map (fun _ => get) (range 3) in
  let measured := map (fun _ => get) (range num_requests) in
  let latencies :=
    omap (fun i => measure_request_latency (net (3 + i)%nat))
         (range num_requests) in
  (warm_up ++ measured, latencies).

(** [_percentile]: guarded against the empty list. *)
Definition _percentile (data : list Q) (percentile : Q) : option Q :=
  match data with
  | [] => Some 0
  | _ => interpolate (Py.sorted data) percentile
  end.

Section Stats.

(** [statistics.stdev], the sample standard deviation: a square root,
    hence not a rational function; it is left abstract. *)
Variable stdev : list Q -> Q.

(** [calculate_stats], the local function of [compare_latencies]. *)
Definition calculate_stats (latencies : list Q)
  : option (gmap string Value) :=
  match latencies with
  | [] => Some {[ "error" := VStr "No successful requests" ]}
  | _ =>
      mean ← statistics.mean latencies;
      median ← statistics.median latencies;
      min ← Py.min latencies;
      max ← Py.max latencies;
      p95 ← _percentile latencies 95;
      p99 ← _percentile latencies 99;
      Some {[ "count" := VInt (Py.len latencies);
              "mean" := VFloat mean;
              "median" := VFloat median;
              "min" := VFloat min;
              "max" := VFloat max;
              "std_dev" :=
                VFloat (if (1 <? Py.len latencies)%Z
                        then stdev latencies else 0);
              "p95" := VFloat p95;
              "p99" := VFloat p99 ]}
  end.

(** [stats[metric]] read as a number. *)
Definition metric (stats : gmap string Value) (m : string) : option Q :=
  stats !! m ≫= number.

Record Comparison := {
  endpoint : string;
  old_url : string;
  new_url : string;
  old_stats : gmap string Value;
  new_stats : gmap string Value;
  additional_latency_ms : gmap string Q;
  old_latencies : list Q;
  new_latencies : list Q
}.

(** [compare_latencies].  Each of the two batches has its own client
    and is answered by its own network; [asyncio.gather] hands back
    both lists once both batches are done. *)
Definition compare_latencies (environment auth_token endpoint : string)
    (num_requests : Z) (old_net new_net : Network) : option Comparison :=
  '(old_url, new_url) ← get_urls environment;
  let old_latencies :=
    (run_latency_test auth_token old_url endpoint num_requests old_net).2 in
  let new_latencies :=
    (run_latency_test auth_token new_url endpoint num_requests new_net).2 in
  old_stats ← calculate_stats old_latencies;
  new_stats ← calculate_stats new_latencies;
  additional_latency ←
    (if decide (old_stats !! "error" = None /\ new_stats !! "error" = None)
     then
       om ← metric old_stats "mean"; nm ← metric new_stats "mean";
       od ← metric old_stats "median"; nd ← metric new_stats "median";
       o95 ← metric old_stats "p95"; n95 ← metric new_stats "p95";
       o99 ← metric old_stats "p99"; n99 ← metric new_stats "p99";
       Some ({[ "mean" := nm - om; "median" := nd - od;
                "p95" := n95 - o95; "p99" := n99 - o99 ]} : gmap string Q)
     else Some ∅);
  Some {| endpoint := endpoint; old_url := old_url; new_url := new_url;
          old_stats := old_stats; new_stats := new_stats;
          additional_latency_ms := additional_latency;
          old_latencies := old_latencies;
          new_latencies := new_latencies |}.

End Stats.

(** [print_results], one line of the table:
    [percent_increase = (additional_val / old_val * 100) if old_val > 0 else 0] *)
Definition percent_increase (old_val additional_val : Q) : option Q :=
  if Py.lt 0 old_val
  then q ← Py.div additional_val old_val; Some (q * 100)
  else Some 0.

(** [print_results], the table of one result without an error: for each
    metric the old value, the new value, the additional latency and the
    percentage. *)
Definition print_results_table (result : Comparison)
  : option (list (string * Q * Q * Q * Q)) :=
  mapM (fun m =>
          old_val ← metric (old_stats result) m;
          new_val ← metric (new_stats result) m;
          additional_val ← additional_latency_ms result !! m;
          percent ← percent_increase old_val additional_val;
          Some (m, old_val, new_val, additional_val, percent))
       ["mean"; "median"; "p95"; "p99"].


(** The last two lines printed for a result: the average additional
    latency with its percentage, or the gain when the gateway is faster. *)
Inductive Summary :=
| Increase (avg_additional percent : Q)
| Faster (avg_additional : Q).

Inductive Printed :=
| ErrorLine (old_error new_error : Value)
| Table (rows : list (string * Q * Q * Q * Q)) (old_count new_count : Value)
        (summary : Summary).

(** [print_results], the body of its loop for one result:
<<
    if "error" in result["old_stats"] or "error" in result["new_stats"]:
        print(... error ...); continue
    ... the table ...
    avg_additional = additional['mean']
    if avg_additional > 0:
        print(f"... +{avg_additional:.2f}ms ({avg_additional/old_stats['mean']*100:.1f}% increase)")
    else:
        print(f"... {avg_additional:.2f}ms (gateway is faster)")
>> *)
Definition print_results_entry (result : Comparison) : option Printed :=
  if decide (is_Some (old_stats result !! "error")
             \/ is_Some (new_stats result !! "error"))
  then Some (ErrorLine (default (VStr "") (old_stats result !! "error"))
                       (default (VStr "") (new_stats result !! "error")))
  else
    rows ← print_results_table result;
    old_count ← old_stats result !! "count";
    new_count ← new_stats result !! "count";
    avg_additional ← additional_latency_ms result !! "mean";
    summary ←
      (if Py.lt 0 avg_additional
       then
         old_mean ← metric (old_stats result) "mean";
         q ← Py.div avg_additional old_mean;
         Some (Increase avg_additional (q * 100))
       else Some (Faster avg_additional));
    Some (Table rows old_count new_count summary).

(** What [main] collects for an endpoint: the comparison, or the endpoint
    with the text of the exception that [compare_latencies] raised. *)
Inductive Result :=
| Failed (endpoint error : string)
| Done (c : Comparison).

(** [print_results]: a result recorded by the exception handler of [main]
    has no ["old_stats"], reading it raises [KeyError]. *)
Definition print_results (results : list Result) : option (list Printed) :=
  mapM (fun result =>
          match result with
          | Failed _ _ => None
          | Done c => print_results_entry c
          end) results.

(** [main], from the token on: one result for each test endpoint, in
    order, each with the networks that answer its two batches. *)
Definition main_results (stdev : list Q -> Q)
    (environment auth_token : string) (num_requests : Z)
    (nets : string -> Network * Network) : list Result :=
  map (fun endpoint =>
         match compare_latencies stdev environment auth_token endpoint
                 num_requests (nets endpoint).1 (nets endpoint).2 with
         | Some c => Done c
         | None => Failed endpoint ("Unknown environment: " +:+ environment)
         end)
      (test_endpoints environment).

End LatencyTester.

(** ** custom-endpoints/test_custom_endpoints.py *)

Module CustomEndpointTest.

(** [measure_latency]: every response is timed, whatever its status. *)
Definition measure_latency (x : Exchange) : option Q :=
  match outcome x with
  | Returns _ => Some ((end_time x - start_time x) * 1000)
  | Raises _ => None
  end.

(** [_percentile]: no guard. *)
Definition _percentile (data : list Q) (percentile : Q) : option Q :=
  interpolate (Py.sorted data) percentile.


Definition old_urls : gmap string string :=
  {[ "dev" := "https://venture.mvciapi.dev.aws.gdcld.net";
     "test" := "https://venture.mvciapi.stage.aws.gdcld.net";
     "prod" := "https://venture.mvciapi.prod.aws.gdcld.net" ]}.

Definition new_urls : gmap string string :=
  {[ "dev" := "https://venture-profile-api.frontdoor.dev-godaddy.com";
     "test" := "https://venture-profile-api.frontdoor.stage-godaddy.com";
     "prod" := "https://venture-profile-api.frontdoor.godaddy.com" ]}.

(** The headers built by [measure_latency]:
<<
    headers = {}
    if self.auth_token and self.auth_token.strip():
        headers["Authorization"] = f"Bearer {self.auth_token}"
>> *)
Definition request_headers (auth_token : string) : gmap string string :=
  if Py.truthy auth_token && Py.truthy (Py.strip auth_token)
  then <["Authorization" := "Bearer " +:+ auth_token]> ∅
  else ∅.

Record Run := {
  endpoint : string;
  old_latencies : list Q;
  new_latencies : list Q;
  old_url : string;
  new_url : string
}.

(** [test_endpoint]: [num_requests] requests to the old URL, then as many
    to the new one, each on a client of its own; [KeyError] for an unknown
    environment. *)
Definition test_endpoint (environment auth_token endpoint : string)
    (num_requests : Z) (old_net new_net : Network)
  : option (list Request * Run) :=
  old_base ← old_urls !! environment;
  new_base ← new_urls !! environment;
  let old_url := old_base +:+ endpoint in
  let new_url := new_base +:+ endpoint in
  let get u := {| url := u; headers := request_headers auth_token |} in
  let old_latencies :=
    omap (fun i => measure_latency (old_net i)) (range num_requests) in
  let new_latencies :=
    omap (fun i => measure_latency (new_net i)) (range num_requests) in
  Some (map (fun _ => get old_url) (range num_requests)
          ++ map (fun _ => get new_url) (range num_requests),
        {| endpoint := endpoint;
           old_latencies := old_latencies; new_latencies := new_latencies;
           old_url := old_url; new_url := new_url |}).

Inductive Summary :=
| Faster (mean_diff : Q)
| Increase (mean_diff percent : Q).

Inductive Analysis :=
| NoData
| Analysed (rows : list (string * Q * Q * Q * Q)) (old_count new_count : Z)
           (summary : Summary).

(** [pct_change = (diff / old_val) * 100 if old_val > 0 else 0] *)
Definition pct_change (old_val diff : Q) : option Q :=
  if Py.lt 0 old_val then q ← Py.div diff old_val; Some (q * 100)
  else Some 0.

(** The four statistics computed for a series. *)
Record Stats := { mean : Q; median : Q; p95 : Q; p99 : Q }.

Definition stats (latencies : list Q) : option Stats :=
  mean ← statistics.mean latencies;
  median ← statistics.median latencies;
  p95 ← _percentile latencies 95;
  p99 ← _percentile latencies 99;
  Some {| mean := mean; median := median; p95 := p95; p99 := p99 |}.

(** The metrics of the table, in its order. *)
Definition metrics : list (string * (Stats -> Q)) :=
  [("mean", mean); ("median", median); ("p95", p95); ("p99", p99)].

(** [_analyze_single_result]: what is printed for one endpoint.  The last
    line divides the mean difference by the old mean when the difference is
    not negative. *)
Definition _analyze_single_result (result : Run) : option Analysis :=
  match old_latencies result, new_latencies result with
  | [], _ | _, [] => Some NoData
  | _, _ =>
      old_stats ← stats (old_latencies result);
      new_stats ← stats (new_latencies result);
      rows ← mapM (fun '(metric, value) =>
                     let old_val := value old_stats in
                     let new_val := value new_stats in
                     let diff := new_val - old_val in
                     pct_change ← pct_change old_val diff;
                     Some (metric, old_val, new_val, diff, pct_change))
                  metrics;
      let mean_diff := mean new_stats - mean old_stats in
      summary ←
        (if Py.lt mean_diff 0 then Some (Faster mean_diff)
         else q ← Py.div mean_diff (mean old_stats);
              Some (Increase mean_diff (q * 100)));
      Some (Analysed rows (Py.len (old_latencies result))
                     (Py.len (new_latencies result)) summary)
  end.

End CustomEndpointTest.

(** ** simple-health-check/test_health_check.py *)

Module SimpleHealthCheckTest.

(** [measure_latency]: a status of 400 or more is reported and dropped. *)
Definition measure_latency (x : Exchange) : option Q :=
  match outcome x with
  | Returns response =>
      if (400 <=? status_code response)%Z
      then None
      else Some ((end_time x - start_time x) * 1000)
  | Raises _ => None
  end.

(** [_percentile]: no guard. *)
Definition _percentile (data : list Q) (percentile : Q) : option Q :=
  interpolate (Py.sorted data) percentile.


Definition old_urls : gmap string string := LatencyTester.old_urls.
Definition new_urls : gmap string string := LatencyTester.new_urls.

(** The headers built by [measure_latency]:
<<
    headers = {}
    if self.auth_token and self.auth_token.strip():
        headers["Authorization"] = f"sso-jwt {self.auth_token}"
>> *)
Definition request_headers (auth_token : string) : gmap string string :=
  if Py.truthy auth_token && Py.truthy (Py.strip auth_token)
  then <["Authorization" := "sso-jwt " +:+ auth_token]> ∅
  else ∅.

Inductive Connectivity :=
| BothUnreachable
| OldUnreachable
| NewUnreachable
| BothReachable.

Record Run := {
  connectivity : Connectivity;
  old_latencies : list Q;
  new_latencies : list Q;
  old_url : string;
  new_url : string
}.

(** [run_test]: one connectivity probe of each URL, then [num_requests]
    requests to the old URL, then as many to the new one, each on a client
    of its own; [KeyError] for an unknown environment. *)
Definition run_test (environment auth_token : string) (num_requests : Z)
    (old_net new_net : Network) : option (list Request * Run) :=
  old_base ← old_urls !! environment;
  new_base ← new_urls !! environment;
  let old_url := old_base +:+ "/health-check" in
  let new_url := new_base +:+ "/health-check" in
  let get u := {| url := u; headers := request_headers auth_token |} in
  let connectivity :=
    match measure_latency (old_net 0%nat), measure_latency (new_net 0%nat) with
    | None, None => BothUnreachable
    | None, Some _ => OldUnreachable
    | Some _, None => NewUnreachable
    | Some _, Some _ => BothReachable
    end in
  let old_latencies :=
    omap (fun i => measure_latency (old_net (1 + i)%nat)) (range num_requests) in
  let new_latencies :=
    omap (fun i => measure_latency (new_net (1 + i)%nat)) (range num_requests) in
  Some ([get old_url; get new_url]
          ++ map (fun _ => get old_url) (range num_requests)
          ++ map (fun _ => get new_url) (range num_requests),
        {| connectivity := connectivity;
           old_latencies := old_latencies; new_latencies := new_latencies;
           old_url := old_url; new_url := new_url |}).

Inductive Summary :=
| Faster (by_ms : Q)
| Adds (mean_diff : Q).

Inductive Analysis :=
| NoData
| Analysed (rows : list (string * Q * Q * Q * Q)) (old_count new_count : Z)
           (summary : Summary).

(** [pct_change = (diff / old_val) * 100 if old_val > 0 else 0] *)
Definition pct_change (old_val diff : Q) : option Q :=
  if Py.lt 0 old_val then q ← Py.div diff old_val; Some (q * 100)
  else Some 0.

(** The four statistics computed for a series. *)
Record Stats := { mean : Q; median : Q; p95 : Q; p99 : Q }.

Definition stats (latencies : list Q) : option Stats :=
  mean ← statistics.mean latencies;
  median ← statistics.median latencies;
  p95 ← _percentile latencies 95;
  p99 ← _percentile latencies 99;
  Some {| mean := mean; median := median; p95 := p95; p99 := p99 |}.

(** The metrics of the table, in its order. *)
Definition metrics : list (string * (Stats -> Q)) :=
  [("mean", mean); ("median", median); ("p95", p95); ("p99", p99)].

(** [analyze_results]: what is printed.  The summary prints the mean
    difference, or its absolute value when the gateway is faster. *)
Definition analyze_results (results : Run) : option Analysis :=
  match old_latencies results, new_latencies results with
  | [], _ | _, [] => Some NoData
  | _, _ =>
      old_stats ← stats (old_latencies results);
      new_stats ← stats (new_latencies results);
      rows ← mapM (fun '(metric, value) =>
                     let old_val := value old_stats in
                     let new_val := value new_stats in
                     let diff := new_val - old_val in
                     pct_change ← pct_change old_val diff;
                     Some (metric, old_val, new_val, diff, pct_change))
                  metrics;
      let mean_diff := mean new_stats - mean old_stats in
      Some (Analysed rows (Py.len (old_latencies results))
                     (Py.len (new_latencies results))
                     (if Py.lt mean_diff 0 then Faster (Qabs mean_diff)
                      else Adds mean_diff))
  end.

End SimpleHealthCheckTest.

(** ** quick_latency_test.py *)

Module QuickLatencyTest.

Definition old_urls : gmap string string := LatencyTester.old_urls.
Definition new_urls : gmap string string := LatencyTester.new_urls.

(** [measure_latency]: one warm-up request, whose failure ends the batch
    with no latencies, then [num_requests] timed requests.  No header is
    set. *)
Definition measure_latency (url : string) (num_requests : Z)
    (net : Network) : list Request * list Q :=
  let get := {| url := url +:+ "/health-check"; headers := ∅ |} in
  match outcome (net 0%nat) with
  | Raises _ => ([get], [])
  | Returns _ =>
      let latencies :=
        omap (fun i =>
                let x := net (1 + i)%nat in
                match outcome x with
                | Returns response =>
                    if (status_code response <? 500)%Z
                    then Some ((end_time x - start_time x) * 1000)
                    else None
                | Raises _ => None
                end)
             (range num_requests) in
      (get :: map (fun _ => get) (range num_requests), latencies)
  end.

(** [_percentile]: no guard. *)
Definition _percentile (data : list Q) (percentile : Q) : option Q :=
  interpolate (Py.sorted data) percentile.

(** The performance assessment printed by [compare_environments]. *)
Definition assessment (additional_latency : Q) : Verdict :=
  if Py.lt additional_latency 5 then Excellent
  else if Py.lt additional_latency 15 then Good
  else if Py.lt additional_latency 30 then Fair
  else Concerning.

(** [percent_increase = (additional_latency / old_avg) * 100] *)
Definition percent_increase (old_avg additional_latency : Q) : option Q :=
  q ← Py.div additional_latency old_avg; Some (q * 100).

Record Report := {
  old_avg : Q;
  new_avg : Q;
  additional_latency : Q;
  percent : Q;
  verdict : Verdict;
  p95 : option (Q * Q)
}.

Inductive Printed :=
| Message (msg : string)
| Results (r : Report).

(** [compare_environments]: what is printed; [None] when an exception
    leaves the method. *)
Definition compare_environments (environment : string) (num_requests : Z)
    (old_net new_net : Network) : option Printed :=
  match old_urls !! environment, new_urls !! environment with
  | Some old_url, Some new_url =>
      let old_latencies := (measure_latency old_url num_requests old_net).2 in
      let new_latencies := (measure_latency new_url num_requests new_net).2 in
      match old_latencies, new_latencies with
      | [], [] => Some (Message "No successful requests to either endpoint")
      | [], _ => Some (Message "No successful requests to old endpoint")
      | _, [] => Some (Message "No successful requests to new endpoint")
      | _, _ =>
          old_avg ← statistics.mean old_latencies;
          new_avg ← statistics.mean new_latencies;
          let additional_latency := new_avg - old_avg in
          percent_increase ← percent_increase old_avg additional_latency;
          p95 ←
            (if ((3 <? Py.len old_latencies)
                 && (3 <? Py.len new_latencies))%Z
             then
               old_p95 ← _percentile old_latencies 95;
               new_p95 ← _percentile new_latencies 95;
               Some (Some (old_p95, new_p95))
             else Some None);
          Some (Results {| old_avg := old_avg; new_avg := new_avg;
                           additional_latency := additional_latency;
                           percent := percent_increase;
                           verdict := assessment additional_latency;
                           p95 := p95 |})
      end
  | _, _ => Some (Message ("Unknown environment: " +:+ environment))
  end.

End QuickLatencyTest.

(** ** enhanced_latency_test.py *)

Module EnhancedLatencyTest.

Definition old_urls : gmap string string := LatencyTester.old_urls.
Definition new_urls : gmap string string := LatencyTester.new_urls.

Record Endpoint := {
  name : string;
  path : string;
  auth_required : bool;
  expected_size : string;
  processing : string
}.

(** [get_test_endpoints], with the customer and venture of the
    environment ([test_data]). *)
Definition get_test_endpoints (environment : string) : list Endpoint :=
  let customer_id := "00000000-0000-0000-0000-000000000000" in
  let venture_id :=
    if decide (environment = "prod")
    then "02c97c68-65ab-4805-9e46-22f13aae55e4"
    else "a4a93b88-da14-4532-a737-0712489bd017" in
  let venture :=
    "/v1/customer/" +:+ customer_id +:+ "/venture/" +:+ venture_id in
  [ {| name := "Health Check"; path := "/health-check";
       auth_required := false; expected_size := "tiny (~20B)";
       processing := "minimal" |};
    {| name := "Brands Status"; path := venture +:+ "/inferred/brands/status";
       auth_required := true; expected_size := "small (~200B)";
       processing := "moderate (auth + external call)" |};
    {| name := "Brands Data"; path := venture +:+ "/inferred/brands";
       auth_required := true; expected_size := "large (~2KB+)";
       processing := "heavy (auth + external call + data processing)" |};
    {| name := "Logo URL"; path := venture +:+ "/inferred/logo-url";
       auth_required := true; expected_size := "small (~100B)";
       processing := "moderate (auth + external call)" |} ].

(** The dictionary returned by [test_endpoint]: with an ["error"] key when
    the warm-up failed, with the measurements otherwise. *)
Inductive EndpointResult :=
| WarmupFailed (name error : string)
| Measured (endpoint : Endpoint) (latencies : list Q)
           (status_codes response_sizes : list Z).

(** The headers built by [test_endpoint]:
<<
    headers = {}
    if auth_required:
        headers["Authorization"] = f"Bearer {self.auth_token}"
>> *)
Definition request_headers (auth_token : string) (endpoint : Endpoint)
  : gmap string string :=
  if auth_required endpoint
  then <["Authorization" := "Bearer " +:+ auth_token]> ∅
  else ∅.

(** [test_endpoint]: the requests sent, in order, and the result.  The
    warm-up and every measured request pass the same [headers]. *)
Definition test_endpoint (auth_token base_url : string) (endpoint : Endpoint)
    (num_requests : Z) (net : Network) : list Request * EndpointResult :=
  let headers := request_headers auth_token endpoint in
  let get := {| url := base_url +:+ path endpoint; headers := headers |} in
  match outcome (net 0%nat) with
  | Raises e =>
      ([get], WarmupFailed (name endpoint) ("Warmup failed: " +:+ e))
  | Returns _ =>
      let answered :=
        omap (fun i =>
                let x := net (1 + i)%nat in
                match outcome x with
                | Returns response =>
                    Some ((end_time x - start_time x) * 1000,
                          status_code response, content_length response)
                | Raises _ => None
                end)
             (range num_requests) in
      (get :: map (fun _ => get) (range num_requests),
       Measured endpoint (map (fun t => t.1.1) answered)
                (map (fun t => t.1.2) answered) (map snd answered))
  end.

Record Comparison := {
  old_avg : Q;
  new_avg : Q;
  additional_latency : Q;
  percent_increase : Q;
  old_count : Z;
  new_count : Z;
  avg_response_size : Q
}.

(** The dictionary returned by [compare_results]. *)
Inductive Compared :=
| Errors (name : string) (old_error new_error : option string)
| NoRequests (name error : string)
| Numbers (endpoint : Endpoint) (c : Comparison).

Definition error_of (r : EndpointResult) : option string :=
  match r with
  | WarmupFailed _ e => Some e
  | Measured _ _ _ _ => None
  end.

Definition name_of (r : EndpointResult) : string :=
  match r with
  | WarmupFailed n _ => n
  | Measured e _ _ _ => name e
  end.

(** [(additional_latency / old_avg) * 100 if old_avg > 0 else 0] *)
Definition percent (old_avg additional_latency : Q) : option Q :=
  if Py.lt 0 old_avg
  then q ← Py.div additional_latency old_avg; Some (q * 100)
  else Some 0.

(** [compare_results]; [None] when an exception leaves the method. *)
Definition compare_results (old_result new_result : EndpointResult)
  : option Compared :=
  match old_result, new_result with
  | Measured endpoint old_latencies _ _,
    Measured _ new_latencies _ response_sizes =>
      match old_latencies, new_latencies with
      | [], _ | _, [] =>
          Some (NoRequests (name endpoint) "No successful requests")
      | _, _ =>
          old_avg ← statistics.mean old_latencies;
          new_avg ← statistics.mean new_latencies;
          let additional_latency := new_avg - old_avg in
          percent_increase ← percent old_avg additional_latency;
          avg_size ←
            (match response_sizes with
             | [] => Some 0
             | _ => statistics.mean (map inject_Z response_sizes)
             end);
          Some (Numbers endpoint
                  {| old_avg := old_avg; new_avg := new_avg;
                     additional_latency := additional_latency;
                     percent_increase := percent_increase;
                     old_count := Py.len old_latencies;
                     new_count := Py.len new_latencies;
                     avg_response_size := avg_size |})
      end
  | _, _ =>
      Some (Errors (name_of old_result)
                   (error_of old_result) (error_of new_result))
  end.

(** The status line of [print_endpoint_summary]. *)
Definition status (additional : Q) : Verdict :=
  if Py.lt additional 5 then Excellent
  else if Py.lt additional 15 then Good
  else if Py.lt additional 30 then Fair
  else Concerning.

(** [print_endpoint_summary]: the status printed, if one is.  Only the
    dictionary of [NoRequests] has an ["error"] key; the one of [Errors]
    has none and no ["additional_latency"] either, so reading it raises
    [KeyError] ([None]). *)
Definition print_endpoint_summary (comparison : Compared)
  : option (option Verdict) :=
  match comparison with
  | NoRequests _ _ => Some None
  | Errors _ _ _ => None
  | Numbers _ c => Some (Some (status (additional_latency c)))
  end.

(** [run_comparison] for one endpoint: the old URL is tested to the end,
    then the new URL, then the two results are compared. *)
Definition run_comparison_endpoint (environment auth_token : string)
    (endpoint : Endpoint) (num_requests : Z) (old_net new_net : Network)
  : option (list Request * Compared) :=
  old_url ← old_urls !! environment;
  new_url ← new_urls !! environment;
  let old := test_endpoint auth_token old_url endpoint num_requests old_net in
  let new := test_endpoint auth_token new_url endpoint num_requests new_net in
  comparison ← compare_results old.2 new.2;
  Some (old.1 ++ new.1, comparison).





End EnhancedLatencyTest.

(** ** generate_csv_report.py and generate_excel_report.py *)

Module generate_csv_report.

(** The ["status"] of one result in [create_csv_reports]:
<<
    "Excellent" if additional.get("mean", 0) < 10
    else "Good" if additional.get("mean", 0) < 25 else "Fair"
>> *)
Definition status (additional : gmap string Q) : Verdict :=
  if Py.lt (default 0 (additional !! "mean")) 10 then Excellent
  else if Py.lt (default 0 (additional !! "mean")) 25 then Good
  else Fair.


(** [stats.get(key, default)] for a key that holds a number. *)
Definition get (stats : gmap string Value) (key : string) (d : Q) : Q :=
  default d (stats !! key ≫= number).

(** One entry of [results_data]. *)
Module Row.

Record t := {
  environment : string;
  old_url : string;
  new_url : string;
  old_avg_ms : Q;
  new_avg_ms : Q;
  additional_latency_ms : Q;
  percent_increase : Q;
  old_p95_ms : Q;
  new_p95_ms : Q;
  requests_tested : Q;
  status : Verdict;
  test_date : string;
  endpoint_tested : string
}.

End Row.

(** The fallback data, used when there is no result to read. *)
Definition sample_results (today : string) : list Row.t :=
  [ {| Row.environment := "dev";
       Row.old_url := "https://venture.mvciapi.dev.aws.gdcld.net";
       Row.new_url := "https://venture-profile-api.frontdoor.dev-godaddy.com";
       Row.old_avg_ms := 206.3; Row.new_avg_ms := 205.0;
       Row.additional_latency_ms := -1.2; Row.percent_increase := -0.6;
       Row.old_p95_ms := 207.8; Row.new_p95_ms := 209.2;
       Row.requests_tested := 15; Row.status := Excellent;
       Row.test_date := today; Row.endpoint_tested := "/health-check" |};
    {| Row.environment := "test";
       Row.old_url := "https://venture.mvciapi.stage.aws.gdcld.net";
       Row.new_url := "https://venture-profile-api.frontdoor.test-godaddy.com";
       Row.old_avg_ms := 206.0; Row.new_avg_ms := 214.9;
       Row.additional_latency_ms := 8.8; Row.percent_increase := 4.3;
       Row.old_p95_ms := 208.9; Row.new_p95_ms := 217.7;
       Row.requests_tested := 15; Row.status := Good;
       Row.test_date := today; Row.endpoint_tested := "/health-check" |};
    {| Row.environment := "prod";
       Row.old_url := "https://venture.mvciapi.prod.aws.gdcld.net";
       Row.new_url := "https://venture-profile-api.frontdoor.godaddy.com";
       Row.old_avg_ms := 213.4; Row.new_avg_ms := 227.2;
       Row.additional_latency_ms := 13.8; Row.percent_increase := 6.5;
       Row.old_p95_ms := 218.0; Row.new_p95_ms := 229.2;
       Row.requests_tested := 15; Row.status := Good;
       Row.test_date := today; Row.endpoint_tested := "/health-check" |} ].

(** The conversion of one result of the test to an entry of
    [results_data]; every [get] has its default, so a summary that is an
    error dictionary reads as zeros. *)
Definition convert (today : string) (result : LatencyTester.Comparison)
  : option Row.t :=
  let old_stats := LatencyTester.old_stats result in
  let new_stats := LatencyTester.new_stats result in
  let additional := LatencyTester.additional_latency_ms result in
  percent_increase ←
    (if Py.lt 0 (get old_stats "mean" 0)
     then q ← Py.div (default 0 (additional !! "mean")) (get old_stats "mean" 1);
          Some (q * 100)
     else Some 0);
  Some {| Row.environment :=
            default "unknown"
              (Py.after_last_slash (LatencyTester.endpoint result) None);
          Row.old_url := LatencyTester.old_url result;
          Row.new_url := LatencyTester.new_url result;
          Row.old_avg_ms := get old_stats "mean" 0;
          Row.new_avg_ms := get new_stats "mean" 0;
          Row.additional_latency_ms := default 0 (additional !! "mean");
          Row.percent_increase := percent_increase;
          Row.old_p95_ms := get old_stats "p95" 0;
          Row.new_p95_ms := get new_stats "p95" 0;
          Row.requests_tested := get old_stats "count" 0;
          Row.status := status additional;
          Row.test_date := today;
          Row.endpoint_tested := LatencyTester.endpoint result |}.

(** [results_data]: the sample when there is no result, else the
    conversion of every result without an ["error"] key. *)
Definition results_data (today : string) (results : list LatencyTester.Result)
  : option (list Row.t) :=
  match results with
  | [] => Some (sample_results today)
  | _ =>
      mapM (convert today)
           (omap (fun result =>
                    match result with
                    | LatencyTester.Failed _ _ => None
                    | LatencyTester.Done c => Some c
                    end) results)
  end.

(** The numbers of the executive summary and of the performance
    comparison. *)
Record Report := {
  rows : list Row.t;
  environments_tested : Z;
  average_additional : Q;
  maximum_additional : Q;
  p95_changes : list (Q * Q)
}.

(** [p95_percent = (p95_diff / old_p95) * 100 if old_p95 > 0 else 0] *)
Definition p95_change (row : Row.t) : option (Q * Q) :=
  let p95_diff := Row.new_p95_ms row - Row.old_p95_ms row in
  p95_percent ←
    (if Py.lt 0 (Row.old_p95_ms row)
     then q ← Py.div p95_diff (Row.old_p95_ms row); Some (q * 100)
     else Some 0);
  Some (p95_diff, p95_percent).

(** [create_csv_reports], from the results read to the numbers written. *)
Definition create_csv_reports (today : string)
    (results : list LatencyTester.Result) : option Report :=
  rows ← results_data today results;
  let additional := map Row.additional_latency_ms rows in
  avg_additional ←
    Py.div (fold_left Qplus additional 0) (inject_Z (Py.len rows));
  max_additional ← Py.max additional;
  p95_changes ← mapM p95_change rows;
  Some {| rows := rows; environments_tested := Py.len rows;
          average_additional := avg_additional;
          maximum_additional := max_additional;
          p95_changes := p95_changes |}.

End generate_csv_report.

Module generate_excel_report.

(** The ["status"] of one result in [create_excel_report]:
<<
    "Good" if additional.get("mean", 0) < 25 else "Fair"
>> *)
Definition status (additional : gmap string Q) : Verdict :=
  if Py.lt (default 0 (additional !! "mean")) 25 then Good else Fair.

(** [stats.get(key, default)] for a key that holds a number. *)
Definition get (stats : gmap string Value) (key : string) (d : Q) : Q :=
  default d (stats !! key ≫= number).

(** One entry of [results_data]. *)
Module Row.

Record t := {
  environment : string;
  old_url : string;
  new_url : string;
  old_avg_ms : Q;
  new_avg_ms : Q;
  additional_latency_ms : Q;
  percent_increase : Q;
  old_p95_ms : Q;
  new_p95_ms : Q;
  requests_tested : Q;
  status : Verdict
}.

End Row.

(** The fallback data, used when there is no result to read. *)
Definition sample_results : list Row.t :=
  [ {| Row.environment := "dev";
       Row.old_url := "https://venture.mvciapi.dev.aws.gdcld.net";
       Row.new_url := "https://venture-profile-api.frontdoor.dev-godaddy.com";
       Row.old_avg_ms := 206.3; Row.new_avg_ms := 205.0;
       Row.additional_latency_ms := -1.2; Row.percent_increase := -0.6;
       Row.old_p95_ms := 207.8; Row.new_p95_ms := 209.2;
       Row.requests_tested := 15; Row.status := Excellent |};
    {| Row.environment := "test";
       Row.old_url := "https://venture.mvciapi.stage.aws.gdcld.net";
       Row.new_url := "https://venture-profile-api.frontdoor.test-godaddy.com";
       Row.old_avg_ms := 206.0; Row.new_avg_ms := 214.9;
       Row.additional_latency_ms := 8.8; Row.percent_increase := 4.3;
       Row.old_p95_ms := 208.9; Row.new_p95_ms := 217.7;
       Row.requests_tested := 15; Row.status := Good |};
    {| Row.environment := "prod";
       Row.old_url := "https://venture.mvciapi.prod.aws.gdcld.net";
       Row.new_url := "https://venture-profile-api.frontdoor.godaddy.com";
       Row.old_avg_ms := 213.4; Row.new_avg_ms := 227.2;
       Row.additional_latency_ms := 13.8; Row.percent_increase := 6.5;
       Row.old_p95_ms := 218.0; Row.new_p95_ms := 229.2;
       Row.requests_tested := 15; Row.status := Good |} ].

(** The conversion of one result of the test to an entry of
    [results_data]; the percentage is computed without a guard:
<<
    (additional.get("mean", 0) / old_stats.get("mean", 1)) * 100
>> *)
Definition convert (result : LatencyTester.Comparison) : option Row.t :=
  let old_stats := LatencyTester.old_stats result in
  let new_stats := LatencyTester.new_stats result in
  let additional := LatencyTester.additional_latency_ms result in
  q ← Py.div (default 0 (additional !! "mean")) (get old_stats "mean" 1);
  Some {| Row.environment :=
            default "unknown"
              (Py.after_last_slash (LatencyTester.endpoint result) None);
          Row.old_url := LatencyTester.old_url result;
          Row.new_url := LatencyTester.new_url result;
          Row.old_avg_ms := get old_stats "mean" 0;
          Row.new_avg_ms := get new_stats "mean" 0;
          Row.additional_latency_ms := default 0 (additional !! "mean");
          Row.percent_increase := q * 100;
          Row.old_p95_ms := get old_stats "p95" 0;
          Row.new_p95_ms := get new_stats "p95" 0;
          Row.requests_tested := get old_stats "count" 0;
          Row.status := status additional |}.

Definition results_data (results : list LatencyTester.Result)
  : option (list Row.t) :=
  match results with
  | [] => Some sample_results
  | _ =>
      mapM convert
           (omap (fun result =>
                    match result with
                    | LatencyTester.Failed _ _ => None
                    | LatencyTester.Done c => Some c
                    end) results)
  end.

Record Report := {
  rows : list Row.t;
  environments_tested : Z;
  average_additional : Q;
  maximum_additional : Q;
  p95_changes : list (Q * Q)
}.

(** The P95 line of the performance metrics, its percentage computed
    without a guard:
<<
    ((result["new_p95_ms"] - result["old_p95_ms"]) / result["old_p95_ms"]) * 100
>> *)
Definition p95_change (row : Row.t) : option (Q * Q) :=
  let p95_diff := Row.new_p95_ms row - Row.old_p95_ms row in
  q ← Py.div p95_diff (Row.old_p95_ms row);
  Some (p95_diff, q * 100).


End generate_excel_report.

(** ** The percentile helper on binary64 floats *)

(** [LatencyTester._percentile] once more, this time in the arithmetic the
    interpreter uses (IEEE 754 binary64, round to nearest even), to
    evaluate it on concrete series. *)
Module Binary64.

(** A Python integer as a float (exact below 2^53). *)
Definition of_int (z : Z) : float :=
  if (z <? 0)%Z then opp (of_uint63 (Uint63.of_Z (- z)))
  else of_uint63 (Uint63.of_Z z).

(** [int(x)]: truncation toward zero; it raises on infinities and NaN. *)
Definition int (x : float) : option Z :=
  match FloatOps.Prim2SF x with
  | SpecFloat.S754_zero _ => Some 0%Z
  | SpecFloat.S754_finite s m e =>
      let v := if (0 <=? e)%Z then (Zpos m * 2 ^ e)%Z
               else Z.quot (Zpos m) (2 ^ (- e)) in
      Some (if s then (- v)%Z else v)
  | _ => None
  end.

Fixpoint insert (x : float) (l : list float) : list float :=
  match l with
  | [] => [x]
  | y :: l' => if ltb y x then y :: insert x l' else x :: y :: l'
  end.

Definition sorted (l : list float) : list float := fold_right insert [] l.

Definition _percentile (data : list float) (percentile : float)
  : option float :=
  match data with
  | [] => Some 0%float
  | _ =>
      let sorted_data := sorted data in
      let index :=
        ((percentile / 100) * of_int (Py.len sorted_data - 1))%float in
      lower ← int index;
      let upper := Z.min (lower + 1) (Py.len sorted_data - 1) in
      let weight := (index - of_int lower)%float in
      match Py.index sorted_data lower, Py.index sorted_data upper with
      | Some a, Some b => Some (a * (1 - weight) + b * weight)%float
      | _, _ => None
      end
  end.

End Binary64.

(** ** The rules of the specification *)

Module Spec.

(** Sampler (4.1): a raised request and a status of 500 or more are
    failures without a latency; any other response is a success carrying
    the elapsed time in milliseconds. *)
Definition sampler_rule (probe : Exchange -> option Q) : Prop :=
  forall x : Exchange,
    match outcome x with
    | Raises _ => probe x = None
    | Returns response =>
        if (500 <=? status_code response)%Z
        then probe x = None
        else probe x = Some ((end_time x - start_time x) * 1000)
    end.

(** Comparator (4.4): [percent = (delta / old) * 100] when [old > 0],
    else [0], and the computation never fails. *)
Definition percent_rule (percent : Q -> Q -> option Q) : Prop :=
  forall old new : Q,
    (0 < old ->
     exists r, percent old (new - old) = Some r /\
               r == (new - old) / old * 100) /\
    (~ 0 < old -> percent old (new - old) = Some 0).

(** BatchRunner (4.2): the bearer token goes out with every request of an
    endpoint that requires authentication, and no [Authorization] header
    with any request of one that does not. *)
Definition auth_rule (requires_auth : bool) (auth_token : string)
    (sent : list Request) : Prop :=
  Forall (fun request =>
            headers request !! "Authorization" =
            if requires_auth then Some ("Bearer " +:+ auth_token) else None)
         sent.

End Spec.
(** ** Networks used in the examples *)

Module Scenario.

(** Every request is answered at once (the clock does not advance) with
    the given status. *)
Definition instant (status : Z) : Network :=
  fun _ => {| start_time := 0;
              outcome := Returns {| status_code := status;
                                    content_length := 20 |};
              end_time := 0 |}.

(** Request [k] starts at second [k] and is answered [seconds] later with
    the given status. *)
Definition steady (status : Z) (seconds : Q) : Network :=
  fun k => {| start_time := inject_Z (Z.of_nat k);
              outcome := Returns {| status_code := status;
                                    content_length := 20 |};
              end_time := inject_Z (Z.of_nat k) + seconds |}.

(** One exchange answered with [status] after a tenth of a second. *)
Definition answered (status : Z) : Exchange :=
  {| start_time := 0;
     outcome := Returns {| status_code := status; content_length := 20 |};
     end_time := 1 # 10 |}.

End Scenario.

(** ** The loop of [EnhancedLatencyTest.run_comparison] *)

Module EnhancedLoop.



End EnhancedLoop.

(** ** The order of the verdicts *)

Module Verdicts.

(** From the best verdict to the worst. *)
Definition severity (v : Verdict) : nat :=
  match v with
  | Excellent => 0
  | Good => 1
  | Fair => 2
  | Concerning => 3
  end.

End Verdicts.

(** ** Facts about the Python primitives *)

Section PyFacts.

Lemma lt_true (a b : Q) : Py.lt a b = true <-> a < b.
Proof.
  unfold Py.lt. rewrite negb_true_iff, <- not_true_iff_false, Qle_bool_iff.
  split; [apply Qnot_le_lt | apply Qlt_not_le].
Qed.

Lemma lt_false (a b : Q) : Py.lt a b = false <-> b <= a.
Proof.
  unfold Py.lt. rewrite negb_false_iff, Qle_bool_iff. reflexivity.
Qed.

(** Insertion keeps the elements. *)
Lemma insert_perm (x : Q) (l : list Q) : Permutation (x :: l) (Py.insert x l).
Proof.
  induction l as [|y l IH]; simpl.
  - reflexivity.
  - destruct (Py.lt y x).
    + rewrite perm_swap. apply perm_skip, IH.
    + reflexivity.
Qed.

Lemma sorted_perm (l : list Q) : Permutation l (Py.sorted l).
Proof.
  induction l as [|x l IH]; simpl.
  - reflexivity.
  - rewrite <- insert_perm. apply perm_skip, IH.
Qed.



(** Insertion keeps the list ascending. *)
Lemma insert_sorted (x : Q) (l : list Q) :
  StronglySorted Qle l -> StronglySorted Qle (Py.insert x l).
Proof.
  induction 1 as [|y l Hs IH Hy]; simpl.
  - repeat constructor.
  - destruct (Py.lt y x) eqn:E.
    + apply lt_true in E. constructor; [exact IH|].
      rewrite <- insert_perm. constructor; [apply Qlt_le_weak, E | exact Hy].
    + apply lt_false in E. constructor; [now constructor|].
      constructor; [exact E|].
      eapply Forall_impl; [exact Hy|]. intros z Hz. simpl in Hz.
      eapply Qle_trans; eassumption.
Qed.

Lemma sorted_ascending (l : list Q) : StronglySorted Qle (Py.sorted l).
Proof.
  induction l as [|x l IH]; simpl; [constructor | now apply insert_sorted].
Qed.

(** [max] and [min] return an element of the list that bounds it. *)
Lemma fold_max_spec (l : list Q) (m : Q) :
  let r := fold_left (fun m y => if Py.lt m y then y else m) l m in
  In r (m :: l) /\ Forall (fun y => y <= r) (m :: l).
Proof.
  revert m. induction l as [|y l IH]; intros m; simpl.
  - split; [now left | constructor; [apply Qle_refl | constructor]].
  - destruct (Py.lt m y) eqn:E.
    + apply lt_true in E. destruct (IH y) as [Hin Hub]. simpl in Hin.
      split; [tauto|].
      pose proof (Forall_inv Hub) as Hy.
      constructor; [|exact Hub].
      eapply Qle_trans; [apply Qlt_le_weak, E | exact Hy].
    + apply lt_false in E. destruct (IH m) as [Hin Hub]. simpl in Hin.
      split; [tauto|].
      pose proof (Forall_inv Hub) as Hm.
      constructor; [exact Hm|]. constructor; [|exact (Forall_inv_tail Hub)].
      eapply Qle_trans; eassumption.
Qed.

Lemma fold_min_spec (l : list Q) (m : Q) :
  let r := fold_left (fun m y => if Py.lt y m then y else m) l m in
  In r (m :: l) /\ Forall (fun y => r <= y) (m :: l).
Proof.
  revert m. induction l as [|y l IH]; intros m; simpl.
  - split; [now left | constructor; [apply Qle_refl | constructor]].
  - destruct (Py.lt y m) eqn:E.
    + apply lt_true in E. destruct (IH y) as [Hin Hlb]. simpl in Hin.
      split; [tauto|].
      pose proof (Forall_inv Hlb) as Hy.
      constructor; [|exact Hlb].
      eapply Qle_trans; [exact Hy | apply Qlt_le_weak, E].
    + apply lt_false in E. destruct (IH m) as [Hin Hlb]. simpl in Hin.
      split; [tauto|].
      pose proof (Forall_inv Hlb) as Hm.
      constructor; [exact Hm|]. constructor; [|exact (Forall_inv_tail Hlb)].
      eapply Qle_trans; eassumption.
Qed.

Lemma max_spec (l : list Q) (r : Q) :
  Py.max l = Some r -> In r l /\ Forall (fun y => y <= r) l.
Proof.
  destruct l as [|x l]; simpl; [discriminate|].
  intros [= <-]. apply fold_max_spec.
Qed.

Lemma min_spec (l : list Q) (r : Q) :
  Py.min l = Some r -> In r l /\ Forall (fun y => r <= y) l.
Proof.
  destruct l as [|x l]; simpl; [discriminate|].
  intros [= <-]. apply fold_min_spec.
Qed.

End PyFacts.

(** ** The percentile helpers: rank arithmetic *)

Section Rank.

Lemma int_floor (x : Q) : 0 <= x -> Py.int x = Qfloor x.
Proof.
  destruct x as [n d]. unfold Qle, Py.int, Qfloor. simpl. intros H.
  apply Z.quot_div_nonneg; lia.
Qed.

Lemma index_front {A} (l : list A) (i : Z) :
  (0 <= i)%Z -> Py.index l i = nth_error l (Z.to_nat i).
Proof.
  intros H. unfold Py.index. destruct (Z.leb_spec 0 i); [reflexivity | lia].
Qed.

Lemma index_empty {A} (i : Z) : Py.index (@nil A) i = None.
Proof.
  unfold Py.index.
  destruct (0 <=? i)%Z; [|destruct (- Py.len [] <=? i)%Z; [|reflexivity]];
    apply nth_error_None; simpl; lia.
Qed.

Lemma len_pos {A} (l : list A) : l <> [] -> (1 <= Py.len l)%Z.
Proof. destruct l; [congruence | unfold Py.len; simpl; lia]. Qed.

Lemma inject_Z_nonneg (z : Z) : (0 <= z)%Z -> 0 <= inject_Z z.
Proof. intros H. change 0 with (inject_Z 0). now rewrite <- Zle_Qle. Qed.

(** The fractional rank of a percentile in [0, 100] lies in [0, n-1]. *)
Lemma rank_bounds (p : Q) (n : Z) :
  0 <= p -> p <= 100 -> (1 <= n)%Z ->
  0 <= (p / 100) * inject_Z (n - 1) /\
  (p / 100) * inject_Z (n - 1) <= inject_Z (n - 1).
Proof.
  intros Hp0 Hp100 Hn.
  assert (H0 : 0 <= p / 100) by (apply Qle_shift_div_l; lra).
  assert (H1 : p / 100 <= 1) by (apply Qle_shift_div_r; lra).
  assert (Hm : 0 <= inject_Z (n - 1)) by (apply inject_Z_nonneg; lia).
  split.
  - now apply Qmult_le_0_compat.
  - rewrite <- (Qmult_1_l (inject_Z (n - 1))) at 2.
    now apply Qmult_le_compat_r.
Qed.

Lemma floor_bounds (x : Q) (m : Z) :
  0 <= x -> x <= inject_Z m -> (0 <= Qfloor x <= m)%Z.
Proof.
  intros H0 Hm. split.
  - change 0%Z with (Qfloor 0). now apply Qfloor_resp_le.
  - rewrite <- (Qfloor_Z m). now apply Qfloor_resp_le.
Qed.

Lemma nth_error_in_range {A} (l : list A) (i : Z) :
  (0 <= i <= Py.len l - 1)%Z -> exists a, nth_error l (Z.to_nat i) = Some a.
Proof.
  intros H. destruct (nth_error l (Z.to_nat i)) eqn:E; [eauto|].
  apply nth_error_None in E. unfold Py.len in H. lia.
Qed.

End Rank.

(** ** The percentile helpers: interpolation *)

Section Interpolation.

(** An ascending list is monotone in its index. *)
Lemma ascending_nth (s : list Q) :
  StronglySorted Qle s ->
  forall (i j : nat) (a b : Q),
    (i <= j)%nat -> nth_error s i = Some a -> nth_error s j = Some b ->
    a <= b.
Proof.
  induction 1 as [|x s Hs IH Hx]; intros i j a b Hij Hi Hj.
  - destruct i; discriminate.
  - destruct i as [|i], j as [|j]; simpl in Hi, Hj.
    + injection Hi as <-. injection Hj as <-. apply Qle_refl.
    + injection Hi as <-. apply nth_error_In in Hj.
      rewrite List.Forall_forall in Hx. now apply Hx.
    + lia.
    + apply (IH i j); [lia | assumption | assumption].
Qed.

(** On a non-empty list and a percentile in [0, 100] the shared body
    returns the interpolated value, with [int] the floor of the rank. *)
Lemma interpolate_in_range (s : list Q) (p : Q) :
  s <> [] -> 0 <= p -> p <= 100 ->
  let index := (p / 100) * inject_Z (Py.len s - 1) in
  let lo := Qfloor index in
  let hi := Z.min (lo + 1) (Py.len s - 1) in
  let w := index - inject_Z lo in
  (0 <= lo <= hi)%Z /\ (hi <= Py.len s - 1)%Z /\
  exists a b,
    nth_error s (Z.to_nat lo) = Some a /\
    nth_error s (Z.to_nat hi) = Some b /\
    interpolate s p = Some (a * (1 - w) + b * w).
Proof.
  intros Hs Hp0 Hp100 index lo hi w.
  pose proof (len_pos s Hs) as Hn.
  destruct (rank_bounds p (Py.len s) Hp0 Hp100 Hn) as [Hi0 Hi1].
  fold index in Hi0, Hi1.
  pose proof (floor_bounds index (Py.len s - 1) Hi0 Hi1) as Hlo.
  fold lo in Hlo.
  assert (Hhi : (lo <= hi <= Py.len s - 1)%Z) by (unfold hi; lia).
  split; [lia|]. split; [lia|].
  destruct (nth_error_in_range s lo) as [a Ha]; [lia|].
  destruct (nth_error_in_range s hi) as [b Hb]; [lia|].
  exists a, b. split; [exact Ha|]. split; [exact Hb|].
  unfold interpolate. fold index. rewrite (int_floor index Hi0). fold lo hi w.
  rewrite (index_front s lo), (index_front s hi) by lia.
  now rewrite Ha, Hb.
Qed.

(** Below zero [int] and the floor part ways: [int(-0.5)] is 0. *)
Lemma int_truncates_toward_zero :
  Py.int (- (1 # 2)) = 0%Z /\ Qfloor (- (1 # 2)) = (-1)%Z.
Proof. split; reflexivity. Qed.

Lemma unguarded_nonempty (data : list Q) (p : Q) :
  data <> [] ->
  LatencyTester._percentile data p = interpolate (Py.sorted data) p.
Proof. destruct data; [congruence | reflexivity]. Qed.

Lemma sorted_nonempty (data : list Q) : data <> [] -> Py.sorted data <> [].
Proof.
  intros H E. apply H. apply Permutation_nil.
  rewrite <- E. symmetry. apply sorted_perm.
Qed.

End Interpolation.




(** ** The percentile helpers: the two ends *)

Section Extremes.

Lemma rank_100 (k : Z) : (100 / 100) * inject_Z k == inject_Z k.
Proof. field. Qed.

Lemma rank_0 (k : Z) : (0 / 100) * inject_Z k == 0.
Proof. field. Qed.

(** The element at the last index of an ascending list bounds it above,
    the one at index 0 bounds it below. *)
Lemma ascending_last (s : list Q) (a : Q) :
  StronglySorted Qle s ->
  nth_error s (Z.to_nat (Py.len s - 1)) = Some a ->
  Forall (fun y => y <= a) s.
Proof.
  intros Hs Ha. apply List.Forall_forall. intros y Hy.
  apply In_nth_error in Hy as [i Hi].
  apply (ascending_nth s Hs i (Z.to_nat (Py.len s - 1))); [|assumption..].
  assert (i < length s)%nat by (apply nth_error_Some; congruence).
  unfold Py.len. lia.
Qed.

Lemma ascending_first (s : list Q) (a : Q) :
  StronglySorted Qle s -> nth_error s 0 = Some a -> Forall (fun y => a <= y) s.
Proof.
  intros Hs Ha. apply List.Forall_forall. intros y Hy.
  apply In_nth_error in Hy as [i Hi].
  apply (ascending_nth s Hs 0%nat i); [lia | assumption..].
Qed.

(** Two elements of a list that both bound it from the same side are
    equal as numbers. *)
Lemma upper_bounds_agree (l s : list Q) (a b : Q) :
  Permutation l s ->
  In a s -> Forall (fun y => y <= a) s ->
  In b l -> Forall (fun y => y <= b) l ->
  a == b.
Proof.
  intros Hperm Ha Hua Hb Hub.
  rewrite List.Forall_forall in Hua, Hub.
  apply Qle_antisym.
  - apply Hub. eapply Permutation_in; [symmetry; exact Hperm | exact Ha].
  - apply Hua. eapply Permutation_in; [exact Hperm | exact Hb].
Qed.

Lemma lower_bounds_agree (l s : list Q) (a b : Q) :
  Permutation l s ->
  In a s -> Forall (fun y => a <= y) s ->
  In b l -> Forall (fun y => b <= y) l ->
  a == b.
Proof.
  intros Hperm Ha Hla Hb Hlb.
  rewrite List.Forall_forall in Hla, Hlb.
  apply Qle_antisym.
  - apply Hla. eapply Permutation_in; [exact Hperm | exact Hb].
  - apply Hlb. eapply Permutation_in; [symmetry; exact Hperm | exact Ha].
Qed.

(** At percentile 100 the shared body returns the last element of the
    sorted list, at percentile 0 the first. *)
Lemma interpolate_100 (s : list Q) :
  s <> [] ->
  exists a r, nth_error s (Z.to_nat (Py.len s - 1)) = Some a /\
              interpolate s 100 = Some r /\ r == a.
Proof.
  intros Hs. pose proof (len_pos s Hs) as Hn.
  destruct (interpolate_in_range s 100 Hs) as (_ & _ & a & b & Ha & Hb & Hr);
    [unfold Qle; simpl; lia | apply Qle_refl |].
  rewrite (Qfloor_comp _ _ (rank_100 (Py.len s - 1))), Qfloor_Z in Ha, Hb, Hr.
  replace (Z.min (Py.len s - 1 + 1) (Py.len s - 1)) with (Py.len s - 1)%Z
    in Hb by lia.
  assert (b = a) as -> by congruence.
  exists a. eexists. split; [exact Ha|]. split; [exact Hr|]. ring.
Qed.

Lemma interpolate_0 (s : list Q) :
  s <> [] ->
  exists a r, nth_error s 0 = Some a /\ interpolate s 0 = Some r /\ r == a.
Proof.
  intros Hs.
  destruct (interpolate_in_range s 0 Hs) as (_ & _ & a & b & Ha & Hb & Hr);
    [apply Qle_refl | unfold Qle; simpl; lia |].
  rewrite (Qfloor_comp _ _ (rank_0 (Py.len s - 1))) in Ha, Hb, Hr.
  change (Qfloor 0) with 0%Z in Ha, Hb, Hr. simpl in Ha.
  exists a. eexists. split; [exact Ha|]. split; [exact Hr|].
  rewrite (rank_0 (Py.len s - 1)). unfold inject_Z. ring.
Qed.

End Extremes.

(** C8.  On a non-empty series, [_percentile] at 100 returns the maximum of
    the series and at 0 its minimum. *)
Theorem percentile_extremes (data : list Q) :
  data <> [] ->
  exists top bottom mx mn : Q,
    LatencyTester._percentile data 100 = Some top /\
    Py.max data = Some mx /\ top == mx /\
    LatencyTester._percentile data 0 = Some bottom /\
    Py.min data = Some mn /\ bottom == mn.
Proof.
  intros Hdata.
  pose proof (sorted_nonempty data Hdata) as Hs.
  pose proof (sorted_ascending data) as Hasc.
  pose proof (sorted_perm data) as Hperm.
  destruct (interpolate_100 _ Hs) as (a & top & Ha & Htop & Etop).
  destruct (interpolate_0 _ Hs) as (c & bottom & Hc & Hbottom & Ebottom).
  destruct (Py.max data) as [mx|] eqn:Hmx; [|destruct data; [congruence | discriminate]].
  destruct (Py.min data) as [mn|] eqn:Hmn; [|destruct data; [congruence | discriminate]].
  apply max_spec in Hmx as [Hmx_in Hmx_ub].
  apply min_spec in Hmn as [Hmn_in Hmn_lb].
  exists top, bottom, mx, mn.
  rewrite !(unguarded_nonempty data _ Hdata).
  split; [exact Htop|]. split; [reflexivity|]. split.
  - rewrite Etop.
    apply (upper_bounds_agree data (Py.sorted data)); try assumption.
    + eapply nth_error_In, Ha.
    + now apply ascending_last.
  - split; [exact Hbottom|]. split; [reflexivity|].
    rewrite Ebottom.
    apply (lower_bounds_agree data (Py.sorted data)); try assumption.
    + eapply nth_error_In, Hc.
    + now apply ascending_first.
Qed.

Lemma percentile_extremes_witness :
  exists top bottom mx mn : Q,
    LatencyTester._percentile [30; 10; 40; 20] 100 = Some top /\
    Py.max [30; 10; 40; 20] = Some mx /\ top == mx /\
    LatencyTester._percentile [30; 10; 40; 20] 0 = Some bottom /\
    Py.min [30; 10; 40; 20] = Some mn /\ bottom == mn.
Proof.
  apply (percentile_extremes [30; 10; 40; 20]). discriminate.
Defined.

(** The same ends in binary64 arithmetic, on a series out of order. *)
Lemma binary64_extremes :
  Binary64._percentile [30; 10; 40; 20]%float 100%float = Some 40%float /\
  Binary64._percentile [30; 10; 40; 20]%float 0%float = Some 10%float /\
  Binary64._percentile [] 95%float = Some 0%float.
Proof. repeat split; vm_compute; reflexivity. Qed.

(** Rounding at work: in binary64 the 95th percentile of 22.3, 10, 22.3
    lies above 22.3, the largest value of the series, and above the 99th
    percentile. *)
Lemma binary64_rounding :
  let data := [0x1.64ccccccccccdp+4; 10; 0x1.64ccccccccccdp+4]%float in
  exists p95 p99 : float,
    Binary64._percentile data 95%float = Some p95 /\
    Binary64._percentile data 99%float = Some p99 /\
    ltb 0x1.64ccccccccccdp+4%float p95 = true /\
    ltb p99 p95 = true.
Proof.
  eexists _, _. repeat split; vm_compute; reflexivity.
Qed.

(** C10.  On the empty list [LatencyTester._percentile] returns 0 for every
    percentile, its guard keeping the indexing out of reach; the helpers of
    [CustomEndpointTest] and [SimpleHealthCheckTest] have no guard and raise
    [IndexError] there. *)
Theorem percentile_empty (p : Q) :
  LatencyTester._percentile [] p = Some 0 /\
  CustomEndpointTest._percentile [] p = None /\
  SimpleHealthCheckTest._percentile [] p = None.
Proof.
  split; [reflexivity|].
  unfold CustomEndpointTest._percentile, SimpleHealthCheckTest._percentile.
  unfold interpolate. simpl Py.sorted. rewrite index_empty. now split.
Qed.


(** ** Probes *)

(** Case analysis on the comparisons of a threshold chain. *)
Ltac thresholds :=
  repeat match goal with
         | |- context [Py.lt ?a ?b] =>
             let E := fresh "E" in
             destruct (Py.lt a b) eqn:E;
             [apply lt_true in E | apply lt_false in E]
         end;
  try reflexivity; try lra.

Lemma latency_tester_sampler :
  Spec.sampler_rule LatencyTester.measure_request_latency.
Proof.
  intros x. unfold LatencyTester.measure_request_latency.
  destruct (outcome x) as [e|response]; [reflexivity|].
  destruct (Z.leb_spec 500 (status_code response)),
           (Z.ltb_spec (status_code response) 500); (reflexivity || lia).
Qed.

(** C2, as the code has it.  [LatencyTester.measure_request_latency]
    follows the sampler rule: a raised request and a status of 500 or more
    give no latency, every status below 500 (4xx included) gives the elapsed
    milliseconds.  [SimpleHealthCheckTest.measure_latency] draws the line at
    400: a raised request and a status of 400 or more give no latency, a
    status below 400 gives the elapsed milliseconds. *)
Theorem probe_classification (x : Exchange) :
  match outcome x with
  | Raises _ =>
      LatencyTester.measure_request_latency x = None /\
      SimpleHealthCheckTest.measure_latency x = None
  | Returns response =>
      let elapsed := (end_time x - start_time x) * 1000 in
      LatencyTester.measure_request_latency x =
        (if (500 <=? status_code response)%Z then None else Some elapsed) /\
      SimpleHealthCheckTest.measure_latency x =
        (if (400 <=? status_code response)%Z then None else Some elapsed)
  end.
Proof.
  unfold LatencyTester.measure_request_latency,
         SimpleHealthCheckTest.measure_latency.
  destruct (outcome x) as [e|response]; [now split|].
  split; [|reflexivity].
  destruct (Z.leb_spec 500 (status_code response)),
           (Z.ltb_spec (status_code response) 500); (reflexivity || lia).
Qed.

(** C2 as stated fails for [SimpleHealthCheckTest.measure_latency]: a 404
    response, a client error, is classified as a failure. *)
Lemma health_check_drops_client_errors :
  outcome (Scenario.answered 404)
    = Returns {| status_code := 404; content_length := 20 |} /\
  SimpleHealthCheckTest.measure_latency (Scenario.answered 404) = None /\
  ~ Spec.sampler_rule SimpleHealthCheckTest.measure_latency.
Proof.
  split; [reflexivity|]. split; [reflexivity|].
  intros H. specialize (H (Scenario.answered 404)). simpl in H. discriminate.
Qed.

(** ** Verdicts *)

(** C3.  The verdict printed from the mean delta [d] is excellent for
    [d < 5], good for [5 <= d < 15], fair for [15 <= d < 30] and concerning
    for [d >= 30]; a negative delta is excellent and 15 is fair. *)
Theorem verdict_thresholds (d : Q) :
  (d < 5 ->
   EnhancedLatencyTest.status d = Excellent /\
   QuickLatencyTest.assessment d = Excellent) /\
  (5 <= d -> d < 15 ->
   EnhancedLatencyTest.status d = Good /\
   QuickLatencyTest.assessment d = Good) /\
  (15 <= d -> d < 30 ->
   EnhancedLatencyTest.status d = Fair /\
   QuickLatencyTest.assessment d = Fair) /\
  (30 <= d ->
   EnhancedLatencyTest.status d = Concerning /\
   QuickLatencyTest.assessment d = Concerning) /\
  (d < 0 ->
   EnhancedLatencyTest.status d = Excellent /\
   QuickLatencyTest.assessment d = Excellent) /\
  (EnhancedLatencyTest.status 15 = Fair /\
   QuickLatencyTest.assessment 15 = Fair).
Proof.
  unfold EnhancedLatencyTest.status, QuickLatencyTest.assessment.
  repeat split; try reflexivity; intros; thresholds.
Qed.


(** ** Summaries *)

(** C5, as the code has it.  [calculate_stats] on an empty series returns
    normally, and what it returns is the dictionary holding the single key
    ["error"] with the text "No successful requests": it has no ["count"]
    and no numeric field at all. *)
Theorem calculate_stats_empty (stdev : list Q -> Q) :
  exists stats : gmap string Value,
    LatencyTester.calculate_stats stdev [] = Some stats /\
    stats !! "error" = Some (VStr "No successful requests") /\
    (forall key : string, key <> "error" -> stats !! key = None) /\
    (forall (key : string) (v : Value),
        stats !! key = Some v -> number v = None).
Proof.
  eexists. split; [reflexivity|]. split; [apply lookup_singleton_eq|]. split.
  - intros key Hkey. now apply lookup_singleton_ne.
  - intros key v Hv. apply lookup_singleton_Some in Hv as [_ <-]. reflexivity.
Qed.

(** C5 as stated fails: the summary of the empty series has no count 0. *)
Lemma calculate_stats_empty_has_no_count :
  ~ exists stats : gmap string Value,
      LatencyTester.calculate_stats (fun _ => 0) [] = Some stats /\
      stats !! "count" = Some (VInt 0).
Proof.
  intros (stats & Hstats & Hcount). simpl in Hstats.
  injection Hstats as <-. now rewrite lookup_singleton_ne in Hcount.
Qed.

(** ** Percentages *)

Lemma div_positive (a b : Q) : 0 < b -> Py.div a b = Some (a / b).
Proof.
  intros Hb. unfold Py.div.
  destruct (Qeq_bool b 0) eqn:E; [|reflexivity].
  apply Qeq_bool_iff in E. rewrite E in Hb. now apply Qlt_irrefl in Hb.
Qed.

(** The guarded percentages follow the rule of the specification. *)
Lemma enhanced_percent_guarded : Spec.percent_rule EnhancedLatencyTest.percent.
Proof.
  intros old new. unfold EnhancedLatencyTest.percent. split; intros H.
  - apply lt_true in H as E. rewrite E, (div_positive _ _ H). simpl.
    eexists. split; reflexivity.
  - destruct (Py.lt 0 old) eqn:E; [apply lt_true in E; contradiction|].
    reflexivity.
Qed.

Lemma print_results_percent_guarded :
  Spec.percent_rule LatencyTester.percent_increase.
Proof.
  intros old new. unfold LatencyTester.percent_increase. split; intros H.
  - apply lt_true in H as E. rewrite E, (div_positive _ _ H). simpl.
    eexists. split; reflexivity.
  - destruct (Py.lt 0 old) eqn:E; [apply lt_true in E; contradiction|].
    reflexivity.
Qed.


(** ** Request headers *)

Lemma Forall_repeat_request {A} (P : Request -> Prop) (get : Request)
    (l : list A) :
  P get -> Forall P (map (fun _ => get) l).
Proof.
  intros H. induction l as [|i l IH]; simpl; constructor; assumption.
Qed.

Lemma enhanced_headers (auth_token : string)
    (endpoint : EnhancedLatencyTest.Endpoint) :
  EnhancedLatencyTest.request_headers auth_token endpoint !! "Authorization" =
  if EnhancedLatencyTest.auth_required endpoint
  then Some ("Bearer " +:+ auth_token) else None.
Proof.
  unfold EnhancedLatencyTest.request_headers.
  destruct (EnhancedLatencyTest.auth_required endpoint).
  - apply lookup_insert_eq.
  - apply lookup_empty.
Qed.

(** C7, as the code has it.  Every request of a batch of
    [EnhancedLatencyTest.test_endpoint] carries the bearer token when the
    endpoint requires authentication and no [Authorization] header when it
    does not, whatever the token.  Every request of a batch of
    [LatencyTester.run_latency_test] carries the bearer token, whatever the
    endpoint. *)
Theorem authorization_header (auth_token base_url : string)
    (endpoint : EnhancedLatencyTest.Endpoint) (path : string)
    (num_requests : Z) (net : Network) :
  Spec.auth_rule (EnhancedLatencyTest.auth_required endpoint) auth_token
    (EnhancedLatencyTest.test_endpoint
       auth_token base_url endpoint num_requests net).1 /\
  Forall (fun request =>
            headers request !! "Authorization"
              = Some ("Bearer " +:+ auth_token))
    (LatencyTester.run_latency_test
       auth_token base_url path num_requests net).1.
Proof.
  split.
  - unfold Spec.auth_rule, EnhancedLatencyTest.test_endpoint.
    pose proof (enhanced_headers auth_token endpoint) as H.
    destruct (outcome (net 0%nat)); simpl.
    + constructor; [exact H | constructor].
    + constructor; [exact H|]. now apply Forall_repeat_request.
  - unfold LatencyTester.run_latency_test. cbn [fst].
    apply Forall_app. split; apply Forall_repeat_request; simpl;
      apply lookup_singleton_eq.
Qed.

(** C7 as stated fails for [LatencyTester.run_latency_test]: the health
    check, which requires no authentication, is requested with the bearer
    token. *)
Lemma health_check_sent_with_token :
  let health_check :=
    {| EnhancedLatencyTest.name := "Health Check";
       EnhancedLatencyTest.path := "/health-check";
       EnhancedLatencyTest.auth_required := false;
       EnhancedLatencyTest.expected_size := "tiny (~20B)";
       EnhancedLatencyTest.processing := "minimal" |} in
  In health_check (EnhancedLatencyTest.get_test_endpoints "dev") /\
  In (EnhancedLatencyTest.path health_check)
     (LatencyTester.test_endpoints "dev") /\
  ~ Spec.auth_rule (EnhancedLatencyTest.auth_required health_check) "token"
      (LatencyTester.run_latency_test
         "token" "https://venture.mvciapi.dev.aws.gdcld.net"
         (EnhancedLatencyTest.path health_check) 1 (Scenario.instant 200)).1.
Proof.
  split; [now left|]. split; [now left|].
  intros H. apply Forall_inv in H. simpl in H.
  rewrite lookup_singleton_eq in H. discriminate.
Qed.

(** ** Report status *)

(** C9, as the code has it.  [generate_csv_report] classifies the mean
    delta as Excellent below 10, Good below 25 and Fair otherwise;
    [generate_excel_report] classifies it as Good below 25 and Fair
    otherwise.  Each of the two differs from the verdict printed at probe
    time for some mean delta. *)
Theorem report_status_thresholds (d : Q) (rest : gmap string Q) :
  let additional := <["mean" := d]> rest in
  ((d < 10 -> generate_csv_report.status additional = Excellent) /\
   (10 <= d -> d < 25 -> generate_csv_report.status additional = Good) /\
   (25 <= d -> generate_csv_report.status additional = Fair)) /\
  ((d < 25 -> generate_excel_report.status additional = Good) /\
   (25 <= d -> generate_excel_report.status additional = Fair)) /\
  (exists delta : Q,
     generate_csv_report.status {[ "mean" := delta ]}
       <> EnhancedLatencyTest.status delta) /\
  (exists delta : Q,
     generate_excel_report.status {[ "mean" := delta ]}
       <> EnhancedLatencyTest.status delta).
Proof.
  intros additional.
  unfold generate_csv_report.status, generate_excel_report.status.
  unfold additional. rewrite lookup_insert_eq. simpl.
  split; [repeat split; intros; thresholds|].
  split; [repeat split; intros; thresholds|].
  split.
  - exists 7. unfold generate_csv_report.status, EnhancedLatencyTest.status.
    rewrite lookup_singleton_eq. simpl. discriminate.
  - exists 0. unfold generate_excel_report.status, EnhancedLatencyTest.status.
    rewrite lookup_singleton_eq. simpl. discriminate.
Qed.

(** C9 as stated fails for [generate_excel_report]: a mean delta of 5,
    below 10, is not classified as Excellent. *)
Lemma excel_status_has_no_excellent :
  generate_excel_report.status {[ "mean" := 5 ]} = Good /\
  generate_excel_report.status {[ "mean" := 5 ]} <> Excellent.
Proof.
  unfold generate_excel_report.status. rewrite lookup_singleton_eq. simpl.
  split; [reflexivity | discriminate].
Qed.


(** * Further properties of the code *)

(** ** The percentile helpers on one sample *)

(** X3.  On a series of one value every percentile is that value, whatever
    the percentile asked for, in all four helpers. *)
Theorem percentile_of_one_sample (v p : Q) :
  exists r : Q,
    r == v /\
    LatencyTester._percentile [v] p = Some r /\
    CustomEndpointTest._percentile [v] p = Some r /\
    SimpleHealthCheckTest._percentile [v] p = Some r /\
    QuickLatencyTest._percentile [v] p = Some r.
Proof.
  assert (Hint : Py.int (p / 100 * inject_Z 0) = 0%Z).
  { unfold Py.int. simpl. rewrite Z.mul_0_r. reflexivity. }
  unfold LatencyTester._percentile, CustomEndpointTest._percentile,
    SimpleHealthCheckTest._percentile, QuickLatencyTest._percentile.
  unfold interpolate. simpl Py.sorted.
  change (Py.len [v] - 1)%Z with 0%Z. rewrite Hint. simpl.
  eexists. split; [|repeat split; reflexivity]. ring.
Qed.

(** ** Summaries of a non-empty series *)

Section Summaries.

Lemma sum_between (l : list Q) (mn mx : Q) :
  Forall (fun y => mn <= y) l -> Forall (fun y => y <= mx) l ->
  inject_Z (Py.len l) * mn <= fold_right Qplus 0 l /\
  fold_right Qplus 0 l <= inject_Z (Py.len l) * mx.
Proof.
  induction l as [|x l IH]; intros Hlb Hub.
  - unfold Py.len. cbn [length fold_right]. change (inject_Z (Z.of_nat 0)) with 0.
    split; lra.
  - apply Forall_cons in Hlb as [Hx1 Hlb]. apply Forall_cons in Hub as [Hx2 Hub].
    destruct (IH Hlb Hub) as [IH1 IH2].
    assert (E : inject_Z (Py.len (x :: l)) == inject_Z (Py.len l) + 1).
    { unfold Py.len. simpl length. rewrite Nat2Z.inj_succ, <- Z.add_1_r.
      now rewrite inject_Z_plus. }
    simpl fold_right. rewrite E. split; lra.
Qed.

Lemma len_positive {A} (l : list A) : l <> [] -> 0 < inject_Z (Py.len l).
Proof.
  intros H. apply len_pos in H. change 0 with (inject_Z 0).
  rewrite <- Zlt_Qlt. lia.
Qed.

(** The mean of a non-empty series exists and lies within its bounds. *)
Lemma mean_between (l : list Q) (mn mx : Q) :
  l <> [] ->
  Forall (fun y => mn <= y) l -> Forall (fun y => y <= mx) l ->
  exists m, statistics.mean l = Some m /\ mn <= m /\ m <= mx.
Proof.
  intros Hl Hlb Hub. pose proof (len_positive l Hl) as Hn.
  destruct (sum_between l mn mx Hlb Hub) as [H1 H2].
  exists (fold_right Qplus 0 l / inject_Z (Py.len l)). split.
  - destruct l; [congruence | reflexivity].
  - split.
    + apply Qle_shift_div_l; [exact Hn | lra].
    + apply Qle_shift_div_r; [exact Hn | lra].
Qed.

(** The median of a non-empty series exists and lies within its bounds. *)
Lemma median_between (l : list Q) (mn mx : Q) :
  l <> [] ->
  Forall (fun y => mn <= y) l -> Forall (fun y => y <= mx) l ->
  exists m, statistics.median l = Some m /\ mn <= m /\ m <= mx.
Proof.
  intros Hl Hlb Hub.
  pose proof (sorted_nonempty l Hl) as Hs. pose proof (len_pos _ Hs) as Hn.
  pose proof (sorted_perm l) as Hperm.
  assert (Hin : forall i a, nth_error (Py.sorted l) i = Some a ->
                            mn <= a /\ a <= mx).
  { intros i a Ha. apply nth_error_In in Ha.
    apply (Permutation_in _ (Permutation_sym Hperm)) in Ha.
    rewrite List.Forall_forall in Hlb, Hub. split; auto. }
  unfold statistics.median. set (s := Py.sorted l) in *.
  destruct (Z.eqb_spec (Py.len s) 0); [lia|].
  destruct (Z.eqb_spec (Py.len s mod 2) 1) as [Hodd|Heven].
  - assert (0 <= Py.len s / 2 <= Py.len s - 1)%Z as Hmid.
    { split; [apply Z.div_pos; lia|].
      assert (Py.len s / 2 < Py.len s)%Z by (apply Z.div_lt; lia). lia. }
    destruct (nth_error_in_range s _ Hmid) as [a Ha].
    exists a. rewrite index_front by lia. split; [exact Ha | eauto].
  - assert (Py.len s mod 2 = 0)%Z as Hmod
      by (pose proof (Z.mod_pos_bound (Py.len s) 2 ltac:(lia)); lia).
    assert (Py.len s = 2 * (Py.len s / 2))%Z as Htwo
      by (rewrite (Z.div_mod (Py.len s) 2) at 1; lia).
    assert (0 <= Py.len s / 2 - 1 <= Py.len s - 1)%Z as H1 by lia.
    assert (0 <= Py.len s / 2 <= Py.len s - 1)%Z as H2 by lia.
    destruct (nth_error_in_range s _ H1) as [a Ha].
    destruct (nth_error_in_range s _ H2) as [b Hb].
    exists ((a + b) / 2). rewrite !index_front by lia. rewrite Ha, Hb. simpl.
    split; [reflexivity|].
    destruct (Hin _ _ Ha), (Hin _ _ Hb).
    split; [apply Qle_shift_div_l | apply Qle_shift_div_r]; lra.
Qed.

Lemma min_max_exist (l : list Q) :
  l <> [] -> exists mn mx, Py.min l = Some mn /\ Py.max l = Some mx.
Proof. destruct l; [congruence | simpl; eauto]. Qed.

Lemma percentile_exists (l : list Q) (p : Q) :
  l <> [] -> 0 <= p -> p <= 100 ->
  exists r, LatencyTester._percentile l p = Some r.
Proof.
  intros Hl Hp0 Hp100. rewrite (unguarded_nonempty l p Hl).
  destruct (interpolate_in_range _ p (sorted_nonempty l Hl) Hp0 Hp100)
    as (_ & _ & a & b & _ & _ & Hr).
  eauto.
Qed.

End Summaries.

(** X5.  [calculate_stats] on a non-empty series never raises: it returns
    a dictionary without an ["error"] key, whose ["count"] is the number of
    latencies and whose ["mean"] and ["median"] lie between its ["min"] and
    its ["max"]. *)
Theorem calculate_stats_nonempty (stdev : list Q -> Q) (latencies : list Q) :
  latencies <> [] ->
  exists (stats : gmap string Value) (mn mx mean median : Q),
    LatencyTester.calculate_stats stdev latencies = Some stats /\
    stats !! "error" = None /\
    stats !! "count" = Some (VInt (Py.len latencies)) /\
    LatencyTester.metric stats "min" = Some mn /\
    LatencyTester.metric stats "max" = Some mx /\
    LatencyTester.metric stats "mean" = Some mean /\
    LatencyTester.metric stats "median" = Some median /\
    (mn <= mean /\ mean <= mx) /\ (mn <= median /\ median <= mx).
Proof.
  intros Hl.
  destruct (min_max_exist latencies Hl) as (mn & mx & Hmn & Hmx).
  destruct (min_spec _ _ Hmn) as [_ Hlb]. destruct (max_spec _ _ Hmx) as [_ Hub].
  destruct (mean_between _ _ _ Hl Hlb Hub) as (mean & Hmean & Hmean_b).
  destruct (median_between _ _ _ Hl Hlb Hub) as (median & Hmedian & Hmedian_b).
  destruct (percentile_exists latencies 95 Hl) as [p95 Hp95];
    [unfold Qle; simpl; lia..|].
  destruct (percentile_exists latencies 99 Hl) as [p99 Hp99];
    [unfold Qle; simpl; lia..|].
  eexists _, mn, mx, mean, median. split.
  - unfold LatencyTester.calculate_stats.
    destruct latencies as [|x l]; [congruence|].
    rewrite Hmean, Hmedian, Hmn, Hmx, Hp95, Hp99. reflexivity.
  - unfold LatencyTester.metric. repeat split; try tauto;
      repeat (rewrite lookup_insert_ne by discriminate);
      try rewrite lookup_insert_eq; try reflexivity.
Qed.

Lemma calculate_stats_nonempty_witness :
  exists (stats : gmap string Value) (mn mx mean median : Q),
    LatencyTester.calculate_stats (fun _ => 0) [200; 202; 198] = Some stats /\
    stats !! "error" = None /\
    stats !! "count" = Some (VInt (Py.len [200; 202; 198])) /\
    LatencyTester.metric stats "min" = Some mn /\
    LatencyTester.metric stats "max" = Some mx /\
    LatencyTester.metric stats "mean" = Some mean /\
    LatencyTester.metric stats "median" = Some median /\
    (mn <= mean /\ mean <= mx) /\ (mn <= median /\ median <= mx).
Proof.
  apply (calculate_stats_nonempty (fun _ => 0) [200; 202; 198]). discriminate.
Defined.

(** ** Batches and comparisons of [LatencyTester] *)

Section LatencyTesterRuns.

Lemma length_range (n : Z) : length (range n) = Z.to_nat n.
Proof. unfold range. apply length_seq. Qed.

Lemma length_omap_split {A B} (f : A -> option B) (l : list A) :
  (length (omap f l) + length (filter (fun x => f x = None) l))%nat = length l.
Proof.
  induction l as [|x l IH]; [reflexivity|].
  rewrite filter_cons. simpl. change (list_omap A B f l) with (omap f l).
  destruct (f x) eqn:E.
  - rewrite decide_False by discriminate. simpl. lia.
  - rewrite decide_True by reflexivity. simpl. lia.
Qed.

Lemma get_urls_known (environment : string) :
  environment ∈ ["dev"; "test"; "prod"] ->
  exists old_url new_url,
    LatencyTester.get_urls environment = Some (old_url, new_url).
Proof.
  intros H. repeat (apply elem_of_cons in H as [->|H]);
    [eexists _, _; vm_compute; reflexivity..|].
  now apply elem_of_nil in H.
Qed.

Lemma get_urls_unknown (environment : string) :
  environment ∉ ["dev"; "test"; "prod"] ->
  LatencyTester.get_urls environment = None.
Proof.
  intros H. unfold LatencyTester.get_urls, LatencyTester.old_urls.
  rewrite !lookup_insert_ne, lookup_singleton_ne; [reflexivity|..];
    intros <-; apply H; set_solver.
Qed.

Variable stdev : list Q -> Q.

(** The two shapes of a summary. *)
Lemma calculate_stats_cases (l : list Q) :
  (l = [] /\
   LatencyTester.calculate_stats stdev l
     = Some {[ "error" := VStr "No successful requests" ]}) \/
  (l <> [] /\
   exists stats,
     LatencyTester.calculate_stats stdev l = Some stats /\
     stats !! "error" = None /\
     exists mean median p95 p99,
       LatencyTester.metric stats "mean" = Some mean /\
       LatencyTester.metric stats "median" = Some median /\
       LatencyTester.metric stats "p95" = Some p95 /\
       LatencyTester.metric stats "p99" = Some p99).
Proof.
  destruct (decide (l = [])) as [->|Hl]; [left; split; reflexivity|].
  right. split; [exact Hl|].
  destruct (min_max_exist l Hl) as (mn & mx & Hmn & Hmx).
  destruct (min_spec _ _ Hmn) as [_ Hlb]. destruct (max_spec _ _ Hmx) as [_ Hub].
  destruct (mean_between _ _ _ Hl Hlb Hub) as (mean & Hmean & _).
  destruct (median_between _ _ _ Hl Hlb Hub) as (median & Hmedian & _).
  destruct (percentile_exists l 95 Hl) as [p95 Hp95]; [unfold Qle; simpl; lia..|].
  destruct (percentile_exists l 99 Hl) as [p99 Hp99]; [unfold Qle; simpl; lia..|].
  eexists. split.
  - unfold LatencyTester.calculate_stats. destruct l; [congruence|].
    rewrite Hmean, Hmedian, Hmn, Hmx, Hp95, Hp99. reflexivity.
  - split; [|exists mean, median, p95, p99]; unfold LatencyTester.metric;
      repeat split;
      repeat (rewrite lookup_insert_ne by discriminate);
      try rewrite lookup_insert_eq; reflexivity.
Qed.

End LatencyTesterRuns.

(** X6.  A batch of [run_latency_test] sends exactly [3 + num_requests]
    requests (none beyond the three warm-ups when [num_requests] is not
    positive), all to [base_url + endpoint]; the answers to the three
    warm-ups never enter the series, and every measured request adds either
    one latency or nothing: latencies and dropped requests add up to
    [num_requests]. *)
Theorem run_latency_test_accounting (auth_token base_url endpoint : string)
    (num_requests : Z) (net : Network) :
  let batch :=
    LatencyTester.run_latency_test auth_token base_url endpoint num_requests net in
  let dropped :=
    filter (fun i => LatencyTester.measure_request_latency (net (3 + i)%nat) = None)
           (range num_requests) in
  length batch.1 = (3 + Z.to_nat num_requests)%nat /\
  Forall (fun request => url request = base_url +:+ endpoint) batch.1 /\
  (length batch.2 + length dropped)%nat = Z.to_nat num_requests /\
  (forall latency : Q,
      latency ∈ batch.2 <->
      exists i : nat,
        (i < Z.to_nat num_requests)%nat /\
        LatencyTester.measure_request_latency (net (3 + i)%nat) = Some latency).
Proof.
  intros batch dropped. unfold batch, LatencyTester.run_latency_test. cbn [fst snd].
  split; [|split; [|split]].
  - rewrite length_app, !length_map, !length_range. reflexivity.
  - apply Forall_app. split; now apply Forall_repeat_request.
  - unfold dropped. rewrite length_omap_split. apply length_range.
  - intros latency. rewrite list_elem_of_omap. unfold range. split.
    + intros (i & Hi & Hm). exists i. split; [|exact Hm].
      apply elem_of_seq in Hi. lia.
    + intros (i & Hi & Hm). exists i. split; [|exact Hm].
      apply elem_of_seq. lia.
Qed.

(** X7.  [compare_latencies] raises exactly for an environment other than
    dev, test and prod.  Otherwise it returns a comparison for the URLs of
    the environment and the endpoint asked for, whose two series are the
    latencies collected by [run_latency_test] from the old and from the new
    URL and whose summaries are those of these series; its additional
    latency is empty as soon as one batch collected nothing, and holds new
    minus old for mean, median, p95 and p99 when both collected
    something. *)
Theorem compare_latencies_outcome (stdev : list Q -> Q)
    (environment auth_token endpoint : string) (num_requests : Z)
    (old_net new_net : Network) :
  match LatencyTester.compare_latencies stdev environment auth_token endpoint
          num_requests old_net new_net with
  | None => environment ∉ ["dev"; "test"; "prod"]
  | Some c =>
      environment ∈ ["dev"; "test"; "prod"] /\
      LatencyTester.get_urls environment
        = Some (LatencyTester.old_url c, LatencyTester.new_url c) /\
      LatencyTester.endpoint c = endpoint /\
      LatencyTester.old_latencies c
        = (LatencyTester.run_latency_test auth_token (LatencyTester.old_url c)
             endpoint num_requests old_net).2 /\
      LatencyTester.new_latencies c
        = (LatencyTester.run_latency_test auth_token (LatencyTester.new_url c)
             endpoint num_requests new_net).2 /\
      LatencyTester.calculate_stats stdev (LatencyTester.old_latencies c)
        = Some (LatencyTester.old_stats c) /\
      LatencyTester.calculate_stats stdev (LatencyTester.new_latencies c)
        = Some (LatencyTester.new_stats c) /\
      (LatencyTester.old_latencies c = [] \/ LatencyTester.new_latencies c = [] ->
       LatencyTester.additional_latency_ms c = ∅) /\
      (LatencyTester.old_latencies c <> [] ->
       LatencyTester.new_latencies c <> [] ->
       forall m : string,
         m ∈ ["mean"; "median"; "p95"; "p99"] ->
         exists old new : Q,
           LatencyTester.metric (LatencyTester.old_stats c) m = Some old /\
           LatencyTester.metric (LatencyTester.new_stats c) m = Some new /\
           LatencyTester.additional_latency_ms c !! m = Some (new - old))
  end.
Proof.
  unfold LatencyTester.compare_latencies.
  destruct (decide (environment ∈ ["dev"; "test"; "prod"])) as [Henv|Henv];
    [|now rewrite (get_urls_unknown _ Henv)].
  destruct (get_urls_known _ Henv) as (old_url & new_url & ->). cbn [mbind option_bind].
  set (ol := (LatencyTester.run_latency_test _ old_url _ _ _).2).
  set (nl := (LatencyTester.run_latency_test _ new_url _ _ _).2).
  destruct (calculate_stats_cases stdev ol)
    as [[Eo Ho]|(Eo & so & Ho & Herr_o & mo & do & p95o & p99o & Hmo & Hdo & H95o & H99o)];
  destruct (calculate_stats_cases stdev nl)
    as [[En Hn]|(En & sn & Hn & Herr_n & mn & dn & p95n & p99n & Hmn & Hdn & H95n & H99n)];
  rewrite Ho, Hn; cbn [mbind option_bind].
  1-3: rewrite decide_False
    by (rewrite ?lookup_singleton_eq; intros [? ?]; discriminate);
    cbn [mbind option_bind LatencyTester.old_latencies LatencyTester.new_latencies
         LatencyTester.old_stats LatencyTester.new_stats
         LatencyTester.old_url LatencyTester.new_url LatencyTester.endpoint
         LatencyTester.additional_latency_ms];
    repeat split; try assumption; try reflexivity; try tauto;
    intros; congruence.
  rewrite decide_True by (split; assumption).
  rewrite Hmo, Hmn, Hdo, Hdn, H95o, H95n, H99o, H99n.
  cbn [mbind option_bind LatencyTester.old_latencies LatencyTester.new_latencies
       LatencyTester.old_stats LatencyTester.new_stats
       LatencyTester.old_url LatencyTester.new_url LatencyTester.endpoint
       LatencyTester.additional_latency_ms].
  repeat split; try assumption.
  - intros [?|?]; congruence.
  - intros _ _ m Hm.
    repeat (apply elem_of_cons in Hm as [->|Hm]); [..|now apply elem_of_nil in Hm];
      eexists _, _; (split; [eassumption|]); (split; [eassumption|]);
      repeat (rewrite lookup_insert_ne by discriminate);
      try rewrite lookup_insert_eq; reflexivity.
Qed.

(** ** Batches and comparisons of [EnhancedLatencyTest] *)

Section EnhancedRuns.

Lemma mean_exists (l : list Q) :
  l <> [] -> exists m, statistics.mean l = Some m.
Proof. destruct l; [congruence | simpl; eauto]. Qed.

Lemma raised_or_returned (o : Outcome) :
  (exists e, o = Raises e) \/ (exists r, o = Returns r).
Proof. destruct o; eauto. Qed.

End EnhancedRuns.



Section EnhancedShapes.

(** With a latency on each side [compare_results] returns numbers. *)
Lemma compare_results_numbers (e1 e2 : EnhancedLatencyTest.Endpoint)
    (ol nl : list Q) (c1 s1 c2 s2 : list Z) :
  ol <> [] -> nl <> [] ->
  exists c : EnhancedLatencyTest.Comparison,
    EnhancedLatencyTest.compare_results
      (EnhancedLatencyTest.Measured e1 ol c1 s1)
      (EnhancedLatencyTest.Measured e2 nl c2 s2)
      = Some (EnhancedLatencyTest.Numbers e1 c) /\
    statistics.mean ol = Some (EnhancedLatencyTest.old_avg c) /\
    statistics.mean nl = Some (EnhancedLatencyTest.new_avg c) /\
    EnhancedLatencyTest.additional_latency c
      = EnhancedLatencyTest.new_avg c - EnhancedLatencyTest.old_avg c /\
    EnhancedLatencyTest.old_count c = Py.len ol /\
    EnhancedLatencyTest.new_count c = Py.len nl /\
    (0 < EnhancedLatencyTest.old_avg c ->
     EnhancedLatencyTest.percent_increase c
       = EnhancedLatencyTest.additional_latency c
         / EnhancedLatencyTest.old_avg c * 100) /\
    (~ 0 < EnhancedLatencyTest.old_avg c ->
     EnhancedLatencyTest.percent_increase c = 0).
Proof.
  intros Hol Hnl. unfold EnhancedLatencyTest.compare_results.
  destruct (mean_exists ol Hol) as [old_avg Ho].
  destruct (mean_exists nl Hnl) as [new_avg Hn].
  assert (Hsize : exists avg_size,
    match s2 with
    | [] => Some 0
    | _ :: _ => statistics.mean (map inject_Z s2)
    end = Some avg_size)
    by (destruct s2; [eauto | apply mean_exists; discriminate]).
  destruct Hsize as [avg_size Hsize].
  destruct (enhanced_percent_guarded old_avg new_avg) as [Hpos Hnonpos].
  destruct ol as [|x ol]; [congruence|]. destruct nl as [|y nl]; [congruence|].
  rewrite Ho, Hn. cbn [mbind option_bind].
  destruct (Qlt_le_dec 0 old_avg) as [Hlt|Hle].
  - destruct (Hpos Hlt) as (r & Hr & _).
    unfold EnhancedLatencyTest.percent in Hr |- *.
    apply lt_true in Hlt as E. rewrite E in Hr |- *.
    rewrite (div_positive _ _ Hlt). cbn [mbind option_bind].
    rewrite Hsize. cbn [mbind option_bind].
    eexists. split; [reflexivity|].
    cbn. repeat split; try reflexivity. intros Hn0. contradiction.
  - assert (Hn0 : ~ 0 < old_avg) by (now apply Qle_not_lt).
    rewrite (Hnonpos Hn0). cbn [mbind option_bind].
    rewrite Hsize. cbn [mbind option_bind].
    eexists. split; [reflexivity|].
    cbn. repeat split; try reflexivity. intros Hp. contradiction.
Qed.

End EnhancedShapes.

(** X9.  [compare_results] never raises.  It returns the dictionary of
    errors when a warm-up failed, the "No successful requests" error when a
    batch has no latency, and numbers otherwise: the two means, their
    difference, the two counts, and a percentage that is the difference over
    the old mean times 100 when the old mean is positive and 0 when it is
    not. *)
Theorem compare_results_outcome
    (old_result new_result : EnhancedLatencyTest.EndpointResult) :
  exists compared : EnhancedLatencyTest.Compared,
    EnhancedLatencyTest.compare_results old_result new_result = Some compared /\
    match old_result, new_result with
    | EnhancedLatencyTest.Measured endpoint old_latencies _ _,
      EnhancedLatencyTest.Measured _ new_latencies _ _ =>
        if decide (old_latencies = [] \/ new_latencies = [])
        then compared = EnhancedLatencyTest.NoRequests
                          (EnhancedLatencyTest.name endpoint)
                          "No successful requests"
        else
          exists c : EnhancedLatencyTest.Comparison,
            compared = EnhancedLatencyTest.Numbers endpoint c /\
            statistics.mean old_latencies
              = Some (EnhancedLatencyTest.old_avg c) /\
            statistics.mean new_latencies
              = Some (EnhancedLatencyTest.new_avg c) /\
            EnhancedLatencyTest.additional_latency c
              = EnhancedLatencyTest.new_avg c - EnhancedLatencyTest.old_avg c /\
            EnhancedLatencyTest.old_count c = Py.len old_latencies /\
            EnhancedLatencyTest.new_count c = Py.len new_latencies /\
            (0 < EnhancedLatencyTest.old_avg c ->
             EnhancedLatencyTest.percent_increase c
               = EnhancedLatencyTest.additional_latency c
                 / EnhancedLatencyTest.old_avg c * 100) /\
            (~ 0 < EnhancedLatencyTest.old_avg c ->
             EnhancedLatencyTest.percent_increase c = 0)
    | _, _ =>
        compared = EnhancedLatencyTest.Errors
                     (EnhancedLatencyTest.name_of old_result)
                     (EnhancedLatencyTest.error_of old_result)
                     (EnhancedLatencyTest.error_of new_result)
    end.
Proof.
  destruct old_result as [n1 e1|ep1 ol c1 s1], new_result as [n2 e2|ep2 nl c2 s2];
    try (eexists; split; reflexivity).
  destruct (decide (ol = [] \/ nl = [])) as [[->| ->]|Hne].
  - eexists; split; reflexivity.
  - destruct ol; eexists; split; reflexivity.
  - destruct (compare_results_numbers ep1 ep2 ol nl c1 s1 c2 s2)
      as (c & Hc & Hrest); [tauto | tauto |].
    eexists. split; [exact Hc|]. exists c. split; [reflexivity | exact Hrest].
Qed.

(** X10.  A warm-up that raises breaks the summary: [compare_results] then
    returns a dictionary with the keys [name], [old_error] and [new_error]
    but no ["error"], so [print_endpoint_summary] goes on to read
    ["additional_latency"] and raises [KeyError].  With both warm-ups
    answered the summary never raises. *)
Theorem warmup_failure_breaks_summary (auth_token old_url new_url : string)
    (endpoint : EnhancedLatencyTest.Endpoint) (num_requests : Z)
    (old_net new_net : Network) :
  let old_result :=
    (EnhancedLatencyTest.test_endpoint
       auth_token old_url endpoint num_requests old_net).2 in
  let new_result :=
    (EnhancedLatencyTest.test_endpoint
       auth_token new_url endpoint num_requests new_net).2 in
  exists compared : EnhancedLatencyTest.Compared,
    EnhancedLatencyTest.compare_results old_result new_result = Some compared /\
    (EnhancedLatencyTest.print_endpoint_summary compared = None <->
     (exists e, outcome (old_net 0%nat) = Raises e) \/
     (exists e, outcome (new_net 0%nat) = Raises e)).
Proof.
  intros old_result new_result.
  unfold old_result, new_result, EnhancedLatencyTest.test_endpoint.
  destruct (outcome (old_net 0%nat)) as [e1|r1], (outcome (new_net 0%nat)) as [e2|r2];
    cbn [snd].
  1-3: eexists; split; [reflexivity|]; split; [eauto | reflexivity].
  match goal with
  | |- context [EnhancedLatencyTest.compare_results
                  (EnhancedLatencyTest.Measured _ ?ol ?c1 ?s1)
                  (EnhancedLatencyTest.Measured _ ?nl ?c2 ?s2)] =>
      destruct (decide (ol = [] \/ nl = [])) as [Hempty|Hne];
      [|destruct (compare_results_numbers endpoint endpoint ol nl c1 s1 c2 s2)
          as (c & Hc & _); [tauto | tauto |]]
  end.
  - eexists. split.
    + unfold EnhancedLatencyTest.compare_results.
      destruct Hempty as [-> | ->]; [reflexivity|].
      match goal with |- context [match ?l with [] => _ | _ => _ end] =>
        destruct l end; reflexivity.
    + split; [discriminate|]. intros [[e He]|[e He]]; discriminate.
  - eexists. split; [exact Hc|].
    split; [discriminate|]. intros [[e He]|[e He]]; discriminate.
Qed.

(** ** Comparisons of [QuickLatencyTest] *)

Section QuickRuns.

Lemma quick_percentile_exists (l : list Q) (p : Q) :
  l <> [] -> 0 <= p -> p <= 100 ->
  exists r, QuickLatencyTest._percentile l p = Some r.
Proof.
  intros Hl Hp0 Hp100. unfold QuickLatencyTest._percentile.
  destruct (interpolate_in_range _ p (sorted_nonempty l Hl) Hp0 Hp100)
    as (_ & _ & a & b & _ & _ & Hr).
  eauto.
Qed.

Lemma div_zero (a b : Q) : b == 0 -> Py.div a b = None.
Proof.
  intros Hb. unfold Py.div.
  now replace (Qeq_bool b 0) with true by (symmetry; now apply Qeq_bool_iff).
Qed.

Lemma div_nonzero (a b : Q) : ~ b == 0 -> Py.div a b = Some (a / b).
Proof.
  intros Hb. unfold Py.div. destruct (Qeq_bool b 0) eqn:E; [|reflexivity].
  apply Qeq_bool_iff in E. contradiction.
Qed.

(** With a sample on each side and an old mean other than zero the
    analysis of [compare_environments] goes through. *)
Lemma quick_analysis_returns (environment old_url new_url : string)
    (num_requests : Z) (old_net new_net : Network) :
  QuickLatencyTest.old_urls !! environment = Some old_url ->
  QuickLatencyTest.new_urls !! environment = Some new_url ->
  (forall m,
      statistics.mean
        (QuickLatencyTest.measure_latency old_url num_requests old_net).2
        = Some m -> ~ m == 0) ->
  exists printed,
    QuickLatencyTest.compare_environments
      environment num_requests old_net new_net = Some printed.
Proof.
  intros Ho Hn Hmean. unfold QuickLatencyTest.compare_environments.
  rewrite Ho, Hn.
  set (ol := (QuickLatencyTest.measure_latency old_url _ _).2) in *.
  set (nl := (QuickLatencyTest.measure_latency new_url _ _).2).
  destruct ol as [|x ol], nl as [|y nl]; eauto.
  destruct (mean_exists (x :: ol) ltac:(discriminate)) as [old_avg Hold].
  destruct (mean_exists (y :: nl) ltac:(discriminate)) as [new_avg Hnew].
  rewrite Hold, Hnew. cbn [mbind option_bind].
  unfold QuickLatencyTest.percent_increase.
  rewrite (div_nonzero _ _ (Hmean _ Hold)). cbn [mbind option_bind].
  destruct (quick_percentile_exists (x :: ol) 95) as [o95 Ho95];
    [discriminate | unfold Qle; simpl; lia..|].
  destruct (quick_percentile_exists (y :: nl) 95) as [n95 Hn95];
    [discriminate | unfold Qle; simpl; lia..|].
  rewrite Ho95, Hn95.
  destruct (_ && _)%Z; cbn [mbind option_bind]; eauto.
Qed.

(** Every latency of a batch is the elapsed time of one of its exchanges. *)
Lemma quick_latency_elapsed (url : string) (num_requests : Z) (net : Network)
    (latency : Q) :
  latency ∈ (QuickLatencyTest.measure_latency url num_requests net).2 ->
  exists k, latency = (end_time (net k) - start_time (net k)) * 1000.
Proof.
  unfold QuickLatencyTest.measure_latency.
  destruct (outcome (net 0%nat)); cbn [snd]; [intros H; inversion H|].
  rewrite list_elem_of_omap. intros (i & _ & Hi).
  destruct (outcome (net (1 + i)%nat)); [discriminate|].
  destruct (_ <? _)%Z; [|discriminate].
  injection Hi as <-. eauto.
Qed.

End QuickRuns.


(** X11.  For a known environment [compare_environments] raises
    ([ZeroDivisionError]) exactly when both batches collected a latency and
    the mean of the old ones is zero; in every other case it prints its
    message or its results. *)
Theorem compare_environments_raises (environment old_url new_url : string)
    (num_requests : Z) (old_net new_net : Network) :
  QuickLatencyTest.old_urls !! environment = Some old_url ->
  QuickLatencyTest.new_urls !! environment = Some new_url ->
  let old_latencies :=
    (QuickLatencyTest.measure_latency old_url num_requests old_net).2 in
  let new_latencies :=
    (QuickLatencyTest.measure_latency new_url num_requests new_net).2 in
  (QuickLatencyTest.compare_environments
     environment num_requests old_net new_net = None <->
   new_latencies <> [] /\
   exists m, statistics.mean old_latencies = Some m /\ m == 0).
Proof.
  intros Ho Hn old_latencies new_latencies. split.
  - intros Hnone.
    destruct (decide (new_latencies = [])) as [Hnl|Hnl].
    + exfalso. revert Hnone. unfold QuickLatencyTest.compare_environments.
      rewrite Ho, Hn. fold old_latencies new_latencies. rewrite Hnl.
      destruct old_latencies; discriminate.
    + split; [exact Hnl|].
      destruct (statistics.mean old_latencies) as [m|] eqn:Hm.
      * exists m. split; [reflexivity|].
        destruct (Qeq_dec m 0) as [E|NE]; [exact E|]. exfalso.
        destruct (quick_analysis_returns environment old_url new_url
                    num_requests old_net new_net Ho Hn) as [printed Hp].
        -- fold old_latencies. intros m' Hm'. congruence.
        -- congruence.
      * exfalso. revert Hnone. unfold QuickLatencyTest.compare_environments.
        rewrite Ho, Hn. fold old_latencies new_latencies.
        destruct old_latencies; [|discriminate].
        destruct new_latencies; discriminate.
  - intros (Hnl & m & Hm & Hzero).
    unfold QuickLatencyTest.compare_environments.
    rewrite Ho, Hn. fold old_latencies new_latencies.
    destruct old_latencies as [|x ol]; [discriminate|].
    destruct new_latencies as [|y nl]; [congruence|].
    rewrite Hm.
    destruct (mean_exists (y :: nl) ltac:(discriminate)) as [new_avg ->].
    cbn [mbind option_bind]. unfold QuickLatencyTest.percent_increase.
    now rewrite (div_zero _ _ Hzero).
Qed.

Lemma compare_environments_raises_witness :
  QuickLatencyTest.compare_environments "dev" 1
    (Scenario.instant 200) (Scenario.steady 200 (1 # 100)) = None.
Proof.
  apply (compare_environments_raises "dev"
           "https://venture.mvciapi.dev.aws.gdcld.net"
           "https://venture-profile-api.frontdoor.dev-godaddy.com"
           1 (Scenario.instant 200) (Scenario.steady 200 (1 # 100)));
    [reflexivity | reflexivity |].
  split; [discriminate|]. eexists. split; [reflexivity|]. reflexivity.
Defined.

(** X12.  When the clock advances during every request to the old URL,
    [compare_environments] never raises, in any environment: all latencies
    are positive, so is their mean, and the unguarded division is safe. *)
Theorem compare_environments_safe (environment : string) (num_requests : Z)
    (old_net new_net : Network) :
  (forall k, start_time (old_net k) < end_time (old_net k)) ->
  exists printed,
    QuickLatencyTest.compare_environments
      environment num_requests old_net new_net = Some printed.
Proof.
  intros Hclock.
  destruct (QuickLatencyTest.old_urls !! environment) as [old_url|] eqn:Ho;
    [|unfold QuickLatencyTest.compare_environments; rewrite Ho; eauto].
  destruct (QuickLatencyTest.new_urls !! environment) as [new_url|] eqn:Hn;
    [|unfold QuickLatencyTest.compare_environments; rewrite Ho, Hn; eauto].
  apply (quick_analysis_returns environment old_url new_url); [assumption..|].
  set (ol := (QuickLatencyTest.measure_latency old_url num_requests old_net).2).
  intros m Hm Hzero.
  assert (Hol : ol <> []) by (intros E; rewrite E in Hm; discriminate).
  destruct (min_max_exist ol Hol) as (mn & mx & Hmn & Hmx).
  destruct (min_spec _ _ Hmn) as [Hin Hlb]. destruct (max_spec _ _ Hmx) as [_ Hub].
  destruct (mean_between _ _ _ Hol Hlb Hub) as (m' & Hm' & Hlow & _).
  assert (m' = m) as -> by congruence.
  apply list_elem_of_In in Hin.
  destruct (quick_latency_elapsed _ _ _ _ Hin) as [k Hk].
  specialize (Hclock k). rewrite Hk in Hlow. lra.
Qed.

Lemma compare_environments_safe_witness :
  exists printed,
    QuickLatencyTest.compare_environments "dev" 4
      (Scenario.steady 200 (1 # 100)) (Scenario.instant 200) = Some printed.
Proof.
  apply (compare_environments_safe "dev" 4
           (Scenario.steady 200 (1 # 100)) (Scenario.instant 200)).
  intros k. unfold Scenario.steady. simpl. lra.
Defined.

(** ** Verdicts and the order of deltas *)

(** X13.  A larger mean delta never gets a better verdict: the status of
    [print_endpoint_summary], the assessment of [compare_environments] and
    the statuses of the two report generators are monotone in the delta. *)
Theorem verdicts_monotone (d1 d2 : Q) :
  d1 <= d2 ->
  (Verdicts.severity (EnhancedLatencyTest.status d1)
   <= Verdicts.severity (EnhancedLatencyTest.status d2))%nat /\
  (Verdicts.severity (QuickLatencyTest.assessment d1)
   <= Verdicts.severity (QuickLatencyTest.assessment d2))%nat /\
  (Verdicts.severity (generate_csv_report.status {[ "mean" := d1 ]})
   <= Verdicts.severity (generate_csv_report.status {[ "mean" := d2 ]}))%nat /\
  (Verdicts.severity (generate_excel_report.status {[ "mean" := d1 ]})
   <= Verdicts.severity (generate_excel_report.status {[ "mean" := d2 ]}))%nat.
Proof.
  intros Hd.
  unfold EnhancedLatencyTest.status, QuickLatencyTest.assessment,
    generate_csv_report.status, generate_excel_report.status.
  rewrite !lookup_singleton_eq. cbn [default].
  repeat split;
    repeat match goal with
           | |- context [Py.lt ?a ?b] =>
               let E := fresh "E" in
               destruct (Py.lt a b) eqn:E;
               [apply lt_true in E | apply lt_false in E]
           end;
    unfold id in *; try (simpl; lia); exfalso; lra.
Qed.

Lemma verdicts_monotone_witness :
  (Verdicts.severity (EnhancedLatencyTest.status 4)
   <= Verdicts.severity (EnhancedLatencyTest.status 16))%nat.
Proof.
  apply (verdicts_monotone 4 16). unfold Qle; simpl; lia.
Defined.

(** ** The token and the [Authorization] header *)

Section Strip.

Lemma truthy_lstrip (s : string) :
  Py.truthy (Py.lstrip s) = true <->
  Exists (fun c => Py.isspace c = false) (String.list_ascii_of_string s).
Proof.
  induction s as [|c s IH]; simpl.
  - split; [discriminate | intros H; inversion H].
  - destruct (Py.isspace c) eqn:E.
    + rewrite IH. split; [now right|].
      intros H. apply Exists_cons in H as [H|H]; [congruence | exact H].
    + split; [now left | reflexivity].
Qed.



End Strip.



(** ** The analyses of [CustomEndpointTest] and [SimpleHealthCheckTest] *)

Section Analyses.

Lemma interpolate_exists (l : list Q) (p : Q) :
  l <> [] -> 0 <= p -> p <= 100 ->
  exists r, interpolate (Py.sorted l) p = Some r.
Proof.
  intros Hl Hp0 Hp100.
  destruct (interpolate_in_range _ p (sorted_nonempty l Hl) Hp0 Hp100)
    as (_ & _ & a & b & _ & _ & Hr).
  eauto.
Qed.

Lemma median_exists (l : list Q) :
  l <> [] -> exists m, statistics.median l = Some m.
Proof.
  intros Hl. destruct (min_max_exist l Hl) as (mn & mx & Hmn & Hmx).
  destruct (min_spec _ _ Hmn) as [_ Hlb]. destruct (max_spec _ _ Hmx) as [_ Hub].
  destruct (median_between _ _ _ Hl Hlb Hub) as (m & Hm & _). eauto.
Qed.

Lemma custom_stats_exist (l : list Q) :
  l <> [] ->
  exists s, CustomEndpointTest.stats l = Some s /\
            statistics.mean l = Some (CustomEndpointTest.mean s).
Proof.
  intros Hl. unfold CustomEndpointTest.stats, CustomEndpointTest._percentile.
  destruct (mean_exists l Hl) as [m ->]. destruct (median_exists l Hl) as [md ->].
  destruct (interpolate_exists l 95 Hl) as [p95 ->]; [unfold Qle; simpl; lia..|].
  destruct (interpolate_exists l 99 Hl) as [p99 ->]; [unfold Qle; simpl; lia..|].
  eexists. split; reflexivity.
Qed.

Lemma simple_stats_exist (l : list Q) :
  l <> [] ->
  exists s, SimpleHealthCheckTest.stats l = Some s /\
            statistics.mean l = Some (SimpleHealthCheckTest.mean s).
Proof.
  intros Hl. unfold SimpleHealthCheckTest.stats, SimpleHealthCheckTest._percentile.
  destruct (mean_exists l Hl) as [m ->]. destruct (median_exists l Hl) as [md ->].
  destruct (interpolate_exists l 95 Hl) as [p95 ->]; [unfold Qle; simpl; lia..|].
  destruct (interpolate_exists l 99 Hl) as [p99 ->]; [unfold Qle; simpl; lia..|].
  eexists. split; reflexivity.
Qed.

(** A guarded percentage never raises. *)
Lemma guarded_percent (old_val diff : Q) :
  exists r,
    (if Py.lt 0 old_val then q ← Py.div diff old_val; Some (q * 100)
     else Some 0) = Some r.
Proof.
  destruct (Py.lt 0 old_val) eqn:E; [|eauto].
  apply lt_true in E. rewrite (div_positive _ _ E). simpl. eauto.
Qed.

Lemma custom_rows_exist (old_stats new_stats : CustomEndpointTest.Stats) :
  exists rows,
    mapM (fun '(metric, value) =>
            let old_val := value old_stats in
            let new_val := value new_stats in
            let diff := new_val - old_val in
            pct_change ← CustomEndpointTest.pct_change old_val diff;
            Some (metric, old_val, new_val, diff, pct_change))
         CustomEndpointTest.metrics = Some rows /\
    length rows = 4%nat.
Proof.
  unfold CustomEndpointTest.metrics, CustomEndpointTest.pct_change.
  cbn [mapM mbind option_bind mret option_ret].
  repeat match goal with
         | |- context [if Py.lt 0 ?o then Py.div ?d ?o ≫= _ else Some 0] =>
             let r := fresh "r" in let E := fresh "E" in
             destruct (guarded_percent o d) as [r E]; rewrite E;
             cbn [mbind option_bind]
         end.
  eexists. split; reflexivity.
Qed.

End Analyses.

Section AnalysesMore.

Lemma simple_rows_exist (old_stats new_stats : SimpleHealthCheckTest.Stats) :
  exists rows,
    mapM (fun '(metric, value) =>
            let old_val := value old_stats in
            let new_val := value new_stats in
            let diff := new_val - old_val in
            pct_change ← SimpleHealthCheckTest.pct_change old_val diff;
            Some (metric, old_val, new_val, diff, pct_change))
         SimpleHealthCheckTest.metrics = Some rows /\
    length rows = 4%nat.
Proof.
  unfold SimpleHealthCheckTest.metrics, SimpleHealthCheckTest.pct_change.
  cbn [mapM mbind option_bind mret option_ret].
  repeat match goal with
         | |- context [if Py.lt 0 ?o then Py.div ?d ?o ≫= _ else Some 0] =>
             let r := fresh "r" in let E := fresh "E" in
             destruct (guarded_percent o d) as [r E]; rewrite E;
             cbn [mbind option_bind]
         end.
  eexists. split; reflexivity.
Qed.

Lemma mean_some_nonempty (l : list Q) (m : Q) :
  statistics.mean l = Some m -> l <> [].
Proof. intros H ->. discriminate. Qed.

End AnalysesMore.

(** X15.  [CustomEndpointTest._analyze_single_result] raises
    ([ZeroDivisionError]) exactly when both series have a latency, the old
    mean is zero and the new mean is not below it: the percentages of
    the table are guarded, the one of the last line is not.  In every other
    case it prints the error or the table. *)
Theorem custom_analysis_raises (result : CustomEndpointTest.Run) :
  CustomEndpointTest._analyze_single_result result = None <->
  exists old_mean new_mean : Q,
    statistics.mean (CustomEndpointTest.old_latencies result) = Some old_mean /\
    statistics.mean (CustomEndpointTest.new_latencies result) = Some new_mean /\
    old_mean == 0 /\ 0 <= new_mean - old_mean.
Proof.
  unfold CustomEndpointTest._analyze_single_result.
  destruct (CustomEndpointTest.old_latencies result) as [|x ol] eqn:Hol.
  { split; [discriminate | intros (? & ? & ? & _); discriminate]. }
  destruct (CustomEndpointTest.new_latencies result) as [|y nl] eqn:Hnl.
  { split; [discriminate | intros (? & ? & _ & ? & _); discriminate]. }
  destruct (custom_stats_exist (x :: ol) ltac:(discriminate)) as (os & -> & Hom).
  destruct (custom_stats_exist (y :: nl) ltac:(discriminate)) as (ns & -> & Hnm).
  cbn [mbind option_bind].
  destruct (custom_rows_exist os ns) as (rows & Hrows & _).
  match goal with
  | |- context [mapM ?f CustomEndpointTest.metrics] =>
      replace (mapM f CustomEndpointTest.metrics) with (Some rows)
        by (symmetry; exact Hrows)
  end.
  cbn [mbind option_bind].
  rewrite Hom, Hnm.
  set (om := CustomEndpointTest.mean os). set (nm := CustomEndpointTest.mean ns).
  destruct (Py.lt (nm - om) 0) eqn:Elt.
  - apply lt_true in Elt. split; [discriminate|].
    intros (om' & nm' & [= <-] & [= <-] & _ & Hge). lra.
  - apply lt_false in Elt.
    destruct (Qeq_dec om 0) as [Hz|Hnz].
    + rewrite (div_zero _ _ Hz). split; [|reflexivity].
      intros _. exists om, nm. repeat split; assumption.
    + rewrite (div_nonzero _ _ Hnz). split; [discriminate|].
      intros (om' & nm' & [= <-] & _ & Hz & _). contradiction.
Qed.

(** X16.  [SimpleHealthCheckTest.analyze_results] never raises: it prints
    the error when a series is empty, and otherwise a table of four lines
    and a summary that involves no division. *)
Theorem simple_analysis_never_raises (results : SimpleHealthCheckTest.Run) :
  exists analysis : SimpleHealthCheckTest.Analysis,
    SimpleHealthCheckTest.analyze_results results = Some analysis /\
    match analysis with
    | SimpleHealthCheckTest.NoData =>
        SimpleHealthCheckTest.old_latencies results = [] \/
        SimpleHealthCheckTest.new_latencies results = []
    | SimpleHealthCheckTest.Analysed rows old_count new_count _ =>
        length rows = 4%nat /\
        old_count = Py.len (SimpleHealthCheckTest.old_latencies results) /\
        new_count = Py.len (SimpleHealthCheckTest.new_latencies results) /\
        (0 < old_count)%Z /\ (0 < new_count)%Z
    end.
Proof.
  unfold SimpleHealthCheckTest.analyze_results.
  destruct (SimpleHealthCheckTest.old_latencies results) as [|x ol] eqn:Hol.
  { eexists. split; [reflexivity | now left]. }
  destruct (SimpleHealthCheckTest.new_latencies results) as [|y nl] eqn:Hnl.
  { eexists. split; [reflexivity | now right]. }
  destruct (simple_stats_exist (x :: ol) ltac:(discriminate)) as (os & -> & _).
  destruct (simple_stats_exist (y :: nl) ltac:(discriminate)) as (ns & -> & _).
  cbn [mbind option_bind].
  destruct (simple_rows_exist os ns) as (rows & Hrows & Hlen).
  match goal with
  | |- context [mapM ?f SimpleHealthCheckTest.metrics] =>
      replace (mapM f SimpleHealthCheckTest.metrics) with (Some rows)
        by (symmetry; exact Hrows)
  end.
  cbn [mbind option_bind].
  eexists. split; [reflexivity|].
  repeat split; try assumption; unfold Py.len; simpl; lia.
Qed.

(** ** What [print_results] prints for a comparison *)

Section PrintResults.

Variable stdev : list Q -> Q.

(** The fields of the summary of a non-empty series that the table and the
    last line read. *)
Lemma calculate_stats_fields (l : list Q) :
  l <> [] ->
  exists stats mean median p95 p99,
    LatencyTester.calculate_stats stdev l = Some stats /\
    statistics.mean l = Some mean /\
    stats !! "error" = None /\
    stats !! "count" = Some (VInt (Py.len l)) /\
    LatencyTester.metric stats "mean" = Some mean /\
    LatencyTester.metric stats "median" = Some median /\
    LatencyTester.metric stats "p95" = Some p95 /\
    LatencyTester.metric stats "p99" = Some p99.
Proof.
  intros Hl.
  destruct (min_max_exist l Hl) as (mn & mx & Hmn & Hmx).
  destruct (mean_exists l Hl) as [mean Hmean].
  destruct (median_exists l Hl) as [median Hmedian].
  destruct (percentile_exists l 95 Hl) as [p95 Hp95]; [unfold Qle; simpl; lia..|].
  destruct (percentile_exists l 99 Hl) as [p99 Hp99]; [unfold Qle; simpl; lia..|].
  eexists _, mean, median, p95, p99. split.
  - unfold LatencyTester.calculate_stats. destruct l; [congruence|].
    rewrite Hmean, Hmedian, Hmn, Hmx, Hp95, Hp99. reflexivity.
  - split; [exact Hmean|]. unfold LatencyTester.metric.
    repeat split;
      repeat (rewrite lookup_insert_ne by discriminate);
      try rewrite lookup_insert_eq; reflexivity.
Qed.

Lemma percent_increase_total (old_val additional_val : Q) :
  exists r, LatencyTester.percent_increase old_val additional_val = Some r.
Proof. apply guarded_percent. Qed.

End PrintResults.

(** X17.  What [print_results] does with a comparison returned by
    [compare_latencies]: it raises ([ZeroDivisionError]) exactly when both
    batches collected a latency, the old mean is zero and the new mean is
    positive.  The percentages of the table are guarded; the percentage of
    the last line divides by the old mean as soon as the additional latency
    is positive.  In every other case it prints the error line or the
    table. *)
Theorem print_results_entry_raises (stdev : list Q -> Q)
    (environment auth_token endpoint : string) (num_requests : Z)
    (old_net new_net : Network) (c : LatencyTester.Comparison) :
  LatencyTester.compare_latencies stdev environment auth_token endpoint
    num_requests old_net new_net = Some c ->
  (LatencyTester.print_results_entry c = None <->
   exists old_mean new_mean : Q,
     statistics.mean (LatencyTester.old_latencies c) = Some old_mean /\
     statistics.mean (LatencyTester.new_latencies c) = Some new_mean /\
     old_mean == 0 /\ 0 < new_mean).
Proof.
  unfold LatencyTester.compare_latencies.
  destruct (LatencyTester.get_urls environment) as [[old_url new_url]|];
    [|discriminate].
  cbn [mbind option_bind].
  set (ol := (LatencyTester.run_latency_test _ old_url _ _ _).2).
  set (nl := (LatencyTester.run_latency_test _ new_url _ _ _).2).
  destruct (decide (ol = [])) as [Eo|Eo]; [rewrite Eo|];
    (destruct (decide (nl = [])) as [En|En]; [rewrite En|]).
  1-3: try (destruct (calculate_stats_fields stdev nl En)
              as (sn & ? & ? & ? & ? & -> & _ & Herr & _));
       try (destruct (calculate_stats_fields stdev ol Eo)
              as (so & ? & ? & ? & ? & -> & _ & Herr & _));
       cbn [LatencyTester.calculate_stats mbind option_bind];
       rewrite decide_False
         by (rewrite ?lookup_singleton_eq; intros [? ?]; discriminate);
       cbn [mbind option_bind]; intros [= <-];
       unfold LatencyTester.print_results_entry;
       cbn [LatencyTester.old_stats LatencyTester.new_stats
            LatencyTester.old_latencies LatencyTester.new_latencies];
       rewrite decide_True
         by (rewrite ?lookup_singleton_eq; eauto);
       (split; [discriminate|]);
       intros (? & ? & Ho & Hn & _); discriminate.
  destruct (calculate_stats_fields stdev ol Eo)
    as (so & mo & do & p95o & p99o & -> & Hsmo & Herr_o & Hcnt_o
        & Hmo & Hdo & H95o & H99o).
  destruct (calculate_stats_fields stdev nl En)
    as (sn & mn & dn & p95n & p99n & -> & Hsmn & Herr_n & Hcnt_n
        & Hmn & Hdn & H95n & H99n).
  cbn [mbind option_bind]. rewrite decide_True by (split; assumption).
  rewrite Hmo, Hmn, Hdo, Hdn, H95o, H95n, H99o, H99n.
  cbn [mbind option_bind]. intros [= <-].
  unfold LatencyTester.print_results_entry, LatencyTester.print_results_table.
  cbn [LatencyTester.old_stats LatencyTester.new_stats
       LatencyTester.old_latencies LatencyTester.new_latencies
       LatencyTester.additional_latency_ms].
  rewrite decide_False
    by (rewrite Herr_o, Herr_n; intros [[? ?]|[? ?]]; discriminate).
  cbn [mapM mbind option_bind mret option_ret].
  rewrite Hmo, Hmn, Hdo, Hdn, H95o, H95n, H99o, H99n, Hcnt_o, Hcnt_n.
  repeat (first [ rewrite lookup_insert_eq
                | rewrite lookup_singleton_eq
                | rewrite lookup_insert_ne by discriminate
                | match goal with
                  | |- context [LatencyTester.percent_increase ?o ?a] =>
                      let r := fresh "r" in let E := fresh "E" in
                      destruct (percent_increase_total o a) as [r E];
                      rewrite E
                  end ];
          cbn [mbind option_bind]).
  rewrite Hsmo, Hsmn.
  destruct (Py.lt 0 (mn - mo)) eqn:Elt.
  - apply lt_true in Elt.
    destruct (Qeq_dec mo 0) as [Hz|Hnz].
    + rewrite (div_zero _ _ Hz). split; [|reflexivity].
      intros _. exists mo, mn. repeat split; try reflexivity; [exact Hz | lra].
    + rewrite (div_nonzero _ _ Hnz). split; [discriminate|].
      intros (? & ? & [= <-] & _ & Hz & _). contradiction.
  - apply lt_false in Elt. split; [discriminate|].
    intros (? & ? & [= <-] & [= <-] & Hz & Hpos). lra.
Qed.

Lemma print_results_entry_raises_witness :
  exists c : LatencyTester.Comparison,
    LatencyTester.compare_latencies (fun _ => 0) "dev" "token" "/health-check"
      1 (Scenario.instant 200) (Scenario.steady 200 (1 # 100)) = Some c /\
    LatencyTester.print_results_entry c = None.
Proof.
  destruct (LatencyTester.compare_latencies (fun _ => 0) "dev" "token"
              "/health-check" 1 (Scenario.instant 200)
              (Scenario.steady 200 (1 # 100))) as [c|] eqn:Hc;
    [|vm_compute in Hc; discriminate].
  exists c. split; [reflexivity|].
  apply (print_results_entry_raises _ _ _ _ _ _ _ c Hc).
  vm_compute in Hc. injection Hc as <-.
  eexists _, _. split; [reflexivity|]. split; [reflexivity|].
  split; [reflexivity | reflexivity].
Defined.

(** ** A whole run of [EnhancedLatencyTest] *)

Section EnhancedRun.






End EnhancedRun.



(** ** The report generators *)

Section Reports.

Lemma csv_convert_total (today : string) (c : LatencyTester.Comparison) :
  exists row,
    generate_csv_report.convert today c = Some row /\
    generate_csv_report.Row.additional_latency_ms row
      = default 0 (LatencyTester.additional_latency_ms c !! "mean") /\
    generate_csv_report.Row.status row
      = generate_csv_report.status (LatencyTester.additional_latency_ms c) /\
    generate_csv_report.Row.old_avg_ms row
      = generate_csv_report.get (LatencyTester.old_stats c) "mean" 0 /\
    generate_csv_report.Row.old_p95_ms row
      = generate_csv_report.get (LatencyTester.old_stats c) "p95" 0 /\
    generate_csv_report.Row.requests_tested row
      = generate_csv_report.get (LatencyTester.old_stats c) "count" 0 /\
    (~ 0 < generate_csv_report.get (LatencyTester.old_stats c) "mean" 0 ->
     generate_csv_report.Row.percent_increase row = 0).
Proof.
  unfold generate_csv_report.convert.
  set (old_stats := LatencyTester.old_stats c).
  assert (Hget : 0 < generate_csv_report.get old_stats "mean" 0 ->
                 generate_csv_report.get old_stats "mean" 1
                 = generate_csv_report.get old_stats "mean" 0).
  { unfold generate_csv_report.get.
    destruct (old_stats !! "mean" ≫= number); simpl; [reflexivity|].
    intros H. now apply Qlt_irrefl in H. }
  destruct (Py.lt 0 (generate_csv_report.get old_stats "mean" 0)) eqn:E.
  - apply lt_true in E. rewrite (Hget E), (div_positive _ _ E).
    cbn [mbind option_bind]. eexists. split; [reflexivity|].
    cbn. repeat split. intros Hn. contradiction.
  - cbn [mbind option_bind]. eexists. split; [reflexivity|].
    cbn. repeat split.
Qed.

Lemma csv_p95_change_total (row : generate_csv_report.Row.t) :
  exists change, generate_csv_report.p95_change row = Some change.
Proof.
  unfold generate_csv_report.p95_change.
  destruct (guarded_percent (generate_csv_report.Row.old_p95_ms row)
              (generate_csv_report.Row.new_p95_ms row
               - generate_csv_report.Row.old_p95_ms row)) as [r ->].
  cbn. eauto.
Qed.

Lemma mapM_total {A B} (f : A -> option B) (l : list A) :
  (forall x, exists y, f x = Some y) ->
  exists k, mapM f l = Some k /\ length k = length l.
Proof.
  intros Hf.
  destruct (mapM f l) as [k|] eqn:E.
  - exists k. split; [reflexivity|].
    apply mapM_Some in E. symmetry. eapply Forall2_length, E.
  - apply mapM_None in E. apply Exists_exists in E as (x & _ & Hx).
    destruct (Hf x) as [y Hy]. congruence.
Qed.


Lemma max_exists (l : list Q) : l <> [] -> exists m, Py.max l = Some m.
Proof. destruct l; [congruence | simpl; eauto]. Qed.

End Reports.

(** X19.  The CSV report does not tell a comparison without data from one
    with no overhead.  When a batch of [compare_latencies] collected
    nothing, the entry converted from the comparison has an additional
    latency and a percentage of 0 and the status Excellent; when it is the
    old batch, its old average, its old p95 and its number of requests are
    0 as well. *)
Theorem csv_row_without_data (stdev : list Q -> Q) (today : string)
    (environment auth_token endpoint : string) (num_requests : Z)
    (old_net new_net : Network) (c : LatencyTester.Comparison) :
  LatencyTester.compare_latencies stdev environment auth_token endpoint
    num_requests old_net new_net = Some c ->
  LatencyTester.old_latencies c = [] \/ LatencyTester.new_latencies c = [] ->
  exists row : generate_csv_report.Row.t,
    generate_csv_report.convert today c = Some row /\
    generate_csv_report.Row.additional_latency_ms row = 0 /\
    generate_csv_report.Row.status row = Excellent /\
    (LatencyTester.old_latencies c = [] ->
     generate_csv_report.Row.old_avg_ms row = 0 /\
     generate_csv_report.Row.old_p95_ms row = 0 /\
     generate_csv_report.Row.requests_tested row = 0 /\
     generate_csv_report.Row.percent_increase row = 0).
Proof.
  intros Hc Hempty.
  destruct (csv_convert_total today c)
    as (row & Hrow & Hadd & Hstatus & Havg & Hp95 & Hcount & Hpercent).
  exists row. split; [exact Hrow|].
  revert Hc. unfold LatencyTester.compare_latencies.
  destruct (LatencyTester.get_urls environment) as [[old_url new_url]|];
    [|discriminate].
  cbn [mbind option_bind].
  set (ol := (LatencyTester.run_latency_test _ old_url _ _ _).2).
  set (nl := (LatencyTester.run_latency_test _ new_url _ _ _).2).
  destruct (calculate_stats_cases stdev ol)
    as [[Eo ->]|(Eo & so & -> & Herr_o & mo & do & p95o & p99o
                 & Hmo & Hdo & H95o & H99o)];
  destruct (calculate_stats_cases stdev nl)
    as [[En ->]|(En & sn & -> & Herr_n & mn & dn & p95n & p99n
                 & Hmn & Hdn & H95n & H99n)];
    cbn [mbind option_bind].
  4: { rewrite decide_True by (split; assumption).
       rewrite Hmo, Hmn, Hdo, Hdn, H95o, H95n, H99o, H99n.
       cbn [mbind option_bind]. intros [= <-]. cbn in Hempty. tauto. }
  all: rewrite decide_False
    by (rewrite ?lookup_singleton_eq; intros [? ?]; discriminate);
    cbn [mbind option_bind]; intros [= <-];
    cbn [LatencyTester.additional_latency_ms LatencyTester.old_stats
         LatencyTester.old_latencies] in *;
    rewrite Hadd, Hstatus; (split; [reflexivity|]); (split; [reflexivity|]);
    intros Hold; try contradiction;
    rewrite Havg, Hp95, Hcount, Hpercent; try (repeat split; reflexivity);
    unfold generate_csv_report.get; rewrite lookup_singleton_ne by discriminate;
    apply Qlt_irrefl.
Qed.

Lemma csv_row_without_data_witness :
  exists (c : LatencyTester.Comparison) (row : generate_csv_report.Row.t),
    generate_csv_report.convert "2025-01-01" c = Some row /\
    generate_csv_report.Row.status row = Excellent.
Proof.
  destruct (LatencyTester.compare_latencies (fun _ => 0) "dev" "token"
              "/health-check" 2 (Scenario.instant 503)
              (Scenario.steady 200 (1 # 100))) as [c|] eqn:Hc;
    [|vm_compute in Hc; discriminate].
  destruct (csv_row_without_data (fun _ => 0) "2025-01-01" _ _ _ _ _ _ c Hc)
    as (row & Hrow & _ & Hstatus & _).
  { left. vm_compute in Hc. injection Hc as <-. reflexivity. }
  exists c, row. split; [exact Hrow | exact Hstatus].
Defined.


Section ExcelReport.






End ExcelReport.


(** ** The batches of [SimpleHealthCheckTest] and [CustomEndpointTest] *)

(** X22.  [SimpleHealthCheckTest.run_test] raises ([KeyError]) exactly
    for an environment other than dev, test and prod.  Otherwise it sends
    [2 + 2 * num_requests] requests: the two connectivity probes, then
    [num_requests] requests to the old health check, then as many to the
    new one.  The answers to the probes are not part of the series: each
    series holds, in request order and one for one, the elapsed
    milliseconds of the measured requests that were answered with a status
    below 400. *)
Theorem run_test_series (environment auth_token : string) (num_requests : Z)
    (old_net new_net : Network) :
  let timed (net : Network) (i : nat) : option Q :=
    match outcome (net (1 + i)%nat) with
    | Returns response =>
        if (status_code response <? 400)%Z
        then Some ((end_time (net (1 + i)%nat)
                    - start_time (net (1 + i)%nat)) * 1000)
        else None
    | Raises _ => None
    end in
  match SimpleHealthCheckTest.run_test
          environment auth_token num_requests old_net new_net with
  | None => environment ∉ ["dev"; "test"; "prod"]
  | Some (sent, run) =>
      environment ∈ ["dev"; "test"; "prod"] /\
      (exists old_base new_base,
          SimpleHealthCheckTest.old_urls !! environment = Some old_base /\
          SimpleHealthCheckTest.new_urls !! environment = Some new_base /\
          SimpleHealthCheckTest.old_url run = old_base +:+ "/health-check" /\
          SimpleHealthCheckTest.new_url run = new_base +:+ "/health-check") /\
      length sent = (2 + 2 * Z.to_nat num_requests)%nat /\
      map url sent
        = [SimpleHealthCheckTest.old_url run; SimpleHealthCheckTest.new_url run]
            ++ repeat (SimpleHealthCheckTest.old_url run) (Z.to_nat num_requests)
            ++ repeat (SimpleHealthCheckTest.new_url run) (Z.to_nat num_requests) /\
      SimpleHealthCheckTest.old_latencies run
        = omap (timed old_net) (range num_requests) /\
      SimpleHealthCheckTest.new_latencies run
        = omap (timed new_net) (range num_requests)
  end.
Proof.
  intros timed. unfold SimpleHealthCheckTest.run_test.
  destruct (SimpleHealthCheckTest.old_urls !! environment) as [ob|] eqn:Ho;
    destruct (SimpleHealthCheckTest.new_urls !! environment) as [nb|] eqn:Hn;
    cbn [mbind option_bind].
  2-4: intros Henv; repeat (apply elem_of_cons in Henv as [->|Henv]);
         try (now apply elem_of_nil in Henv); vm_compute in Ho, Hn; congruence.
  cbn [SimpleHealthCheckTest.old_latencies
       SimpleHealthCheckTest.new_latencies SimpleHealthCheckTest.old_url
       SimpleHealthCheckTest.new_url].
  assert (Htimed : forall (net : Network) (l : list nat),
            omap (fun i => SimpleHealthCheckTest.measure_latency (net (1 + i)%nat)) l
            = omap (timed net) l).
  { intros net l. induction l as [|i l IH]; [reflexivity|].
    cbn [omap list_omap]. unfold timed at 1.
    unfold SimpleHealthCheckTest.measure_latency at 1.
    change (list_omap _ _ ?f l) with (omap f l). rewrite IH.
    destruct (outcome (net (1 + i)%nat)) as [e|response]; [reflexivity|].
    rewrite Z.leb_antisym. now destruct (_ <? _)%Z. }
  split.
  { destruct (decide (environment ∈ ["dev"; "test"; "prod"])) as [H|H];
      [exact H|]. exfalso. revert Ho.
    unfold SimpleHealthCheckTest.old_urls, LatencyTester.old_urls.
    rewrite !lookup_insert_ne, lookup_singleton_ne; [discriminate|..];
      intros <-; apply H; set_solver. }
  split; [exists ob, nb; repeat split; reflexivity|].
  split; [cbn [length app]; rewrite length_app, !length_map, !length_range; lia|].
  split; [|split; apply Htimed].
  cbn [map app url]. rewrite map_app, !map_map. cbn [url].
  rewrite !map_const, !length_range. reflexivity.
Qed.

(** X23.  [CustomEndpointTest.test_endpoint] raises ([KeyError]) exactly
    for an environment other than dev, test and prod.  Otherwise it sends
    [2 * num_requests] requests, without a warm-up: [num_requests] to the
    old URL, then as many to the new one.  Each series holds, in request
    order and one for one, the elapsed milliseconds of every request that
    was answered, whatever its status: server errors are timed like
    successes, only a raised request is left out. *)
Theorem custom_test_endpoint_series (environment auth_token endpoint : string)
    (num_requests : Z) (old_net new_net : Network) :
  let timed (net : Network) (i : nat) : option Q :=
    match outcome (net i) with
    | Returns _ => Some ((end_time (net i) - start_time (net i)) * 1000)
    | Raises _ => None
    end in
  match CustomEndpointTest.test_endpoint
          environment auth_token endpoint num_requests old_net new_net with
  | None => environment ∉ ["dev"; "test"; "prod"]
  | Some (sent, run) =>
      environment ∈ ["dev"; "test"; "prod"] /\
      (exists old_base new_base,
          CustomEndpointTest.old_urls !! environment = Some old_base /\
          CustomEndpointTest.new_urls !! environment = Some new_base /\
          CustomEndpointTest.old_url run = old_base +:+ endpoint /\
          CustomEndpointTest.new_url run = new_base +:+ endpoint) /\
      CustomEndpointTest.endpoint run = endpoint /\
      length sent = (2 * Z.to_nat num_requests)%nat /\
      map url sent
        = repeat (CustomEndpointTest.old_url run) (Z.to_nat num_requests)
            ++ repeat (CustomEndpointTest.new_url run) (Z.to_nat num_requests) /\
      CustomEndpointTest.old_latencies run
        = omap (timed old_net) (range num_requests) /\
      CustomEndpointTest.new_latencies run
        = omap (timed new_net) (range num_requests)
  end.
Proof.
  intros timed. unfold CustomEndpointTest.test_endpoint.
  destruct (CustomEndpointTest.old_urls !! environment) as [ob|] eqn:Ho;
    destruct (CustomEndpointTest.new_urls !! environment) as [nb|] eqn:Hn;
    cbn [mbind option_bind].
  2-4: intros Henv; repeat (apply elem_of_cons in Henv as [->|Henv]);
         try (now apply elem_of_nil in Henv); vm_compute in Ho, Hn; congruence.
  cbn [CustomEndpointTest.old_latencies CustomEndpointTest.new_latencies
       CustomEndpointTest.old_url CustomEndpointTest.new_url
       CustomEndpointTest.endpoint].
  split.
  { destruct (decide (environment ∈ ["dev"; "test"; "prod"])) as [H|H];
      [exact H|]. exfalso. revert Ho. unfold CustomEndpointTest.old_urls.
    rewrite !lookup_insert_ne, lookup_singleton_ne; [discriminate|..];
      intros <-; apply H; set_solver. }
  split; [exists ob, nb; repeat split; reflexivity|].
  split; [reflexivity|].
  split; [rewrite length_app, !length_map, !length_range; lia|].
  split; [|split; reflexivity].
  rewrite map_app, !map_map. cbn [url].
  rewrite !map_const, !length_range. reflexivity.
Qed.

(** ** From a run to its report *)

Section RunToReport.

Variable stdev : list Q -> Q.

Lemma compare_latencies_known (environment auth_token endpoint : string)
    (num_requests : Z) (old_net new_net : Network) :
  environment ∈ ["dev"; "test"; "prod"] ->
  exists c,
    LatencyTester.compare_latencies stdev environment auth_token endpoint
      num_requests old_net new_net = Some c.
Proof.
  intros Henv. unfold LatencyTester.compare_latencies.
  destruct (get_urls_known _ Henv) as (old_url & new_url & ->).
  cbn [mbind option_bind].
  set (ol := (LatencyTester.run_latency_test _ old_url _ _ _).2).
  set (nl := (LatencyTester.run_latency_test _ new_url _ _ _).2).
  destruct (calculate_stats_cases stdev ol)
    as [[Eo ->]|(Eo & so & -> & Herr_o & mo & do & p95o & p99o
                 & Hmo & Hdo & H95o & H99o)];
  destruct (calculate_stats_cases stdev nl)
    as [[En ->]|(En & sn & -> & Herr_n & mn & dn & p95n & p99n
                 & Hmn & Hdn & H95n & H99n)];
    cbn [mbind option_bind].
  4: { rewrite decide_True by (split; assumption).
       rewrite Hmo, Hmn, Hdo, Hdn, H95o, H95n, H99o, H99n. cbn. eauto. }
  all: rewrite decide_False
    by (rewrite ?lookup_singleton_eq; intros [? ?]; discriminate);
    cbn; eauto.
Qed.

Lemma csv_summary_total (rows : list generate_csv_report.Row.t) :
  rows <> [] ->
  exists avg mx changes,
    Py.div (fold_left Qplus
              (map generate_csv_report.Row.additional_latency_ms rows) 0)
           (inject_Z (Py.len rows)) = Some avg /\
    Py.max (map generate_csv_report.Row.additional_latency_ms rows) = Some mx /\
    mapM generate_csv_report.p95_change rows = Some changes.
Proof.
  intros Hrows.
  destruct (max_exists (map generate_csv_report.Row.additional_latency_ms rows))
    as [mx Hmx]; [destruct rows; [congruence | discriminate]|].
  destruct (mapM_total generate_csv_report.p95_change rows csv_p95_change_total)
    as (changes & Hchanges & _).
  eexists _, mx, changes. split; [|split; assumption].
  apply div_nonzero. intros Hz. pose proof (len_positive rows Hrows) as Hpos.
  rewrite Hz in Hpos. now apply Qlt_irrefl in Hpos.
Qed.

End RunToReport.

(** X24.  A run of [main] in dev, test or prod collects one comparison for
    each of its three endpoints and no error entry, whatever the network
    does, and [create_csv_reports] turns these results into a report of
    three entries without raising. *)
Theorem run_then_csv_report (stdev : list Q -> Q)
    (today environment auth_token : string) (num_requests : Z)
    (nets : string -> Network * Network) :
  environment ∈ ["dev"; "test"; "prod"] ->
  let results :=
    LatencyTester.main_results stdev environment auth_token num_requests nets in
  length results = 3%nat /\
  Forall (fun r => exists c, r = LatencyTester.Done c) results /\
  exists report,
    generate_csv_report.create_csv_reports today results = Some report /\
    length (generate_csv_report.rows report) = 3%nat /\
    generate_csv_report.environments_tested report = 3%Z.
Proof.
  intros Henv results. unfold results, LatencyTester.main_results,
    LatencyTester.test_endpoints.
  cbn [map].
  repeat match goal with
         | |- context [LatencyTester.compare_latencies stdev environment
                         auth_token ?ep num_requests ?o ?n] =>
             let c := fresh "c" in
             destruct (compare_latencies_known stdev environment auth_token
                         ep num_requests o n Henv) as [c ->]
         end.
  split; [reflexivity|]. split; [repeat constructor; eauto|].
  unfold generate_csv_report.create_csv_reports,
    generate_csv_report.results_data.
  cbn [omap list_omap].
  destruct (mapM_total (generate_csv_report.convert today) [c; c0; c1])
    as (rows & -> & Hlen).
  { intros x. destruct (csv_convert_total today x) as (row & Hrow & _). eauto. }
  cbn [mbind option_bind].
  destruct (csv_summary_total rows) as (avg & mx & changes & -> & -> & ->);
    [intros ->; discriminate|].
  cbn [mbind option_bind]. eexists. split; [reflexivity|].
  cbn. split; [exact Hlen|]. unfold Py.len. rewrite Hlen. reflexivity.
Qed.

Lemma run_then_csv_report_witness :
  exists report,
    generate_csv_report.create_csv_reports "2025-01-01"
      (LatencyTester.main_results (fun _ => 0) "dev" "token" 2
         (fun _ => (Scenario.instant 503, Scenario.steady 200 (1 # 100))))
    = Some report /\
    length (generate_csv_report.rows report) = 3%nat.
Proof.
  destruct (run_then_csv_report (fun _ => 0) "2025-01-01" "dev" "token" 2
              (fun _ => (Scenario.instant 503, Scenario.steady 200 (1 # 100))))
    as (_ & _ & report & Hreport & Hrows & _).
  - constructor.
  - exists report. split; [exact Hreport | exact Hrows].
Defined.
